(** * RSSSummary: the feed-to-digest pipeline of [src/main.py]

    A shallow embedding of the script: [main], [send_email],
    [load_feeds_info], [read_rss_feed] and [get_summary_length], followed by
    the properties the specification states about them.

    Conventions of the embedding.
    - A Python [str] is a Rocq [string]; a character stands for the code
      point of the same number, so the texts covered are those whose code
      points lie below 256.
    - [os.environ] and the parsed [.env] file are finite maps from names to
      values ([gmap string string]); [os.getenv] is map lookup.
    - Everything outside the script (the clock, the time-zone table, the feed
      parser, the web, the HTML parser, the model service and the mail
      transport) is a field of the record [World].
    - A function that prints, calls a collaborator or raises is a computation
      in the monad [M]: the list of events it performed, and either the
      exception it raised or its return value.
    - Line 163 of the source lacks the colon that ends a [def] header; the
      embedding reads the function with it. *)

From Stdlib Require Import ZArith List String Ascii Bool Lia QArith.
From stdpp Require Import gmap strings fin_maps.
Import ListNotations.

Local Open Scope string_scope.
Local Open Scope Z_scope.

(** ** Python strings *)

Module PyStr.

(** The characters the script's literals need and a Rocq string literal
    cannot spell directly. *)
Definition nl : string := String (ascii_of_nat 10) EmptyString.
Definition dquote : string := String (ascii_of_nat 34) EmptyString.

(** [str.isspace] on one character, for code points below 256: the ASCII
    controls 9..13 and 28..31, the space, NEL (133) and NBSP (160). *)
Definition isspace (c : ascii) : bool :=
  let n := nat_of_ascii c in
  ((9 <=? n) && (n <=? 13) || (28 <=? n) && (n <=? 32)
   || (n =? 133) || (n =? 160))%nat.

(** [s.lstrip()] *)
Fixpoint lstrip (s : string) : string :=
  match s with
  | EmptyString => EmptyString
  | String c r => if isspace c then lstrip r else s
  end.

(** [s.rstrip()] *)
Fixpoint rstrip (s : string) : string :=
  match s with
  | EmptyString => EmptyString
  | String c r =>
      match rstrip r with
      | EmptyString => if isspace c then EmptyString else String c EmptyString
      | r' => String c r'
      end
  end.

(** [s.strip()] *)
Definition strip (s : string) : string := rstrip (lstrip s).

(** Every character of [s] is white space. *)
Fixpoint all_space (s : string) : bool :=
  match s with
  | EmptyString => true
  | String c r => isspace c && all_space r
  end.

Definition first_char (s : string) : option ascii :=
  match s with EmptyString => None | String c _ => Some c end.

Fixpoint last_char (s : string) : option ascii :=
  match s with
  | EmptyString => None
  | String c EmptyString => Some c
  | String _ r => last_char r
  end.

(** Truth value of an [Optional[str]]: [None] and the empty string are
    false, every other string is true. *)
Definition truthy (o : option string) : bool :=
  match o with
  | None => false
  | Some EmptyString => false
  | Some (String _ _) => true
  end.

(** *** [int(s)] in base ten

    White space around the number is dropped, one sign is allowed, and the
    digits may be grouped by single underscores.  Inside a text of ASCII
    characters only, the white space [int] drops is 9..13 and 32; a text
    with a character above 126 is first rewritten, which turns every
    [isspace] character above 126 into a space. *)
Definition is_ascii_text (s : string) : bool :=
  forallb (fun c => (nat_of_ascii c <? 128)%nat) (list_ascii_of_string s).

Definition int_space (ascii_only : bool) (c : ascii) : bool :=
  let n := nat_of_ascii c in
  ((9 <=? n) && (n <=? 13) || (n =? 32)
   || negb ascii_only && (127 <=? n) && isspace c)%nat.

Definition digit_value (c : ascii) : option Z :=
  let n := nat_of_ascii c in
  if ((48 <=? n) && (n <=? 57))%nat then Some (Z.of_nat n - 48) else None.

(** The digits after the first one: [acc] is the value so far, and
    [after_digit] tells whether the previous character was a digit (an
    underscore must stand between two digits). *)
Fixpoint int_digits (cs : list ascii) (acc : Z) (after_digit : bool)
  : option Z :=
  match cs with
  | [] => if after_digit then Some acc else None
  | c :: r =>
      match digit_value c with
      | Some d => int_digits r (10 * acc + d) true
      | None =>
          if (nat_of_ascii c =? 95)%nat && after_digit
          then int_digits r acc false
          else None
      end
  end.

(** Drop the leading elements that satisfy [p]. *)
Fixpoint skip {A} (p : A -> bool) (l : list A) : list A :=
  match l with
  | [] => []
  | x :: r => if p x then skip p r else l
  end.

Definition int_unsigned (cs : list ascii) : option Z :=
  match cs with
  | [] => None
  | c :: r =>
      match digit_value c with
      | Some d => int_digits r d true
      | None => None
      end
  end.

Definition int (s : string) : option Z :=
  let sp := int_space (is_ascii_text s) in
  let cs := rev (skip sp (rev (skip sp (list_ascii_of_string s)))) in
  match cs with
  | c :: r =>
      if (nat_of_ascii c =? 45)%nat then Z.opp <$> int_unsigned r
      else if (nat_of_ascii c =? 43)%nat then int_unsigned r
      else int_unsigned cs
  | [] => None
  end.

End PyStr.

(** ** Calendar arithmetic of [datetime]

    An instant is a number of seconds since 1970-01-01T00:00:00 UTC; a wall
    clock reading in some zone is the same kind of number, counted from
    midnight 1970-01-01 of that zone.  Dates are proleptic Gregorian. *)

Module Calendar.

Record date := Date { year : Z; month : Z; day : Z }.

Definition date_eqb (a b : date) : bool :=
  (year a =? year b) && (month a =? month b) && (day a =? day b).

(** Number of days from 1970-01-01 to the given civil date. *)
Definition days_from_civil (y m d : Z) : Z :=
  let y' := if m <=? 2 then y - 1 else y in
  let era := y' / 400 in
  let yoe := y' - era * 400 in
  let mp := if m <=? 2 then m + 9 else m - 3 in
  let doy := (153 * mp + 2) / 5 + d - 1 in
  let doe := yoe * 365 + yoe / 4 - yoe / 100 + doy in
  era * 146097 + doe - 719468.

(** The civil date of a day number. *)
Definition civil_from_days (z : Z) : date :=
  let z' := z + 719468 in
  let era := z' / 146097 in
  let doe := z' - era * 146097 in
  let yoe := (doe - doe / 1460 + doe / 36524 - doe / 146096) / 365 in
  let doy := doe - (365 * yoe + yoe / 4 - yoe / 100) in
  let mp := (5 * doy + 2) / 153 in
  let d := doy - (153 * mp + 2) / 5 + 1 in
  let m := if mp <? 10 then mp + 3 else mp - 9 in
  Date (yoe + era * 400 + (if m <=? 2 then 1 else 0)) m d.

(** The first six fields of a [time.struct_time], as the feed parser
    delivers them: a calendar time in UTC with every field in its range. *)
Record struct_time := StructTime {
  tm_year : Z; tm_mon : Z; tm_mday : Z;
  tm_hour : Z; tm_min : Z; tm_sec : Z }.

(** The UTC [datetime] built from the six fields, as an instant. *)
Definition datetime_utc (t : struct_time) : Z :=
  days_from_civil (tm_year t) (tm_mon t) (tm_mday t) * 86400
  + tm_hour t * 3600 + tm_min t * 60 + tm_sec t.

(** A time zone gives the offset from UTC, in seconds, in force at an
    instant. *)
Definition tzinfo := Z -> Z.

(** [dt.astimezone(tz)]: the wall clock reading of the instant in [tz]. *)
Definition astimezone (tz : tzinfo) (instant : Z) : Z := instant + tz instant.

(** [dt.date()] of a wall clock reading. *)
Definition date_of (wall : Z) : date := civil_from_days (wall / 86400).

(** [dt - datetime.timedelta(days=n)] on a wall clock reading: with a pytz
    zone attached the subtraction moves the reading and leaves the zone
    data as it was. *)
Definition minus_days (wall n : Z) : Z := wall - n * 86400.

(** Day of the week of a day number, Sunday being 0. *)
Definition weekday (days : Z) : Z := (days + 4) mod 7.

(** Day number of the last Sunday of a month that has 31 days. *)
Definition last_sunday (y m : Z) : Z :=
  let d31 := days_from_civil y m 31 in d31 - weekday d31.

(** Central European time under the rule in force since 1996: summer time
    (UTC+2) from 01:00 UTC on the last Sunday of March to 01:00 UTC on the
    last Sunday of October, UTC+1 otherwise. *)
Definition central_european : tzinfo := fun instant =>
  let y := year (civil_from_days (instant / 86400)) in
  let start := last_sunday y 3 * 86400 + 3600 in
  let stop := last_sunday y 10 * 86400 + 3600 in
  if (start <=? instant) && (instant <? stop) then 7200 else 3600.

End Calendar.

Import Calendar.

#[global] Arguments days_from_civil : simpl never.
#[global] Arguments civil_from_days : simpl never.
#[global] Arguments datetime_utc : simpl never.
#[global] Arguments astimezone : simpl never.
#[global] Arguments date_of : simpl never.
#[global] Arguments minus_days : simpl never.
#[global] Arguments date_eqb : simpl never.

(** ** Data model *)

(** A category tag of a feed entry; the parser leaves [term] at [None] when
    the tag carries only a scheme or a label. *)
Record Tag := { term : option string }.

(** A feed entry as the script reads it.  [published_parsed] is [None] when
    the attribute is missing or holds [None]; [tags] is [None] when the entry
    has no [tags] attribute. *)
Record Entry := {
  title : string;
  link : string;
  published : string;
  published_parsed : option struct_time;
  tags : option (list Tag) }.

(** The dict with the keys "title", "published", "link" and "summary" that
    [main] appends to [complete_summary]. *)
Record ArticleSummary := {
  item_title : string;
  item_published : string;
  item_link : string;
  item_summary : string }.

(** One entry of the [messages] argument of the model call. *)
Record ChatMessage := { role : string; content : string }.

(** The keyword arguments of [openai.chat.completions.create]; the
    temperature is the decimal literal of the source. *)
Record ChatRequest := {
  model : string;
  messages : list ChatMessage;
  max_tokens : Z;
  temperature : Q }.

(** The [EmailMessage] handed to the transport. *)
Record EmailMessage := {
  msg_content : string;
  msg_subtype : string;
  msg_subject : string;
  msg_from : string;
  msg_to : string }.

(** ** Effects *)

(** What a run does that can be seen from outside, in the order it does it:
    a line printed, a call of a collaborator with its arguments, and
    [MessageBuilt], which marks the point where [send_email] has composed its
    [EmailMessage]. *)
Inductive event :=
| Print (line : string)
| FeedParse (url : string)
| HttpGet (url : string) (timeout : Z)
| ChatCreate (req : ChatRequest)
| MessageBuilt (msg : EmailMessage)
| SmtpConnect (host : string) (port : Z)
| SmtpLogin (user password : string)
| SmtpSend (msg : EmailMessage).

(** The exceptions a run can end with: those the script's own expressions
    raise, and one for each collaborator that fails. *)
Inductive exn :=
| AttributeError (name : string)
| IndexError
| ValueError
| UnboundLocalError (name : string)
| RequestException
| OpenAIError
| SMTPException.

(** What lies outside the script.  A collaborator that may raise answers
    [None] (or [false]) where it does.
    - [os_environ]: the process environment when the script starts;
    - [dotenv_file]: the names and values of the [.env] file;
    - [clock]: the instant [datetime.datetime.now] reads;
    - [amsterdam]: the zone [pytz.timezone] gives for "Europe/Amsterdam";
    - [feed_entries url]: the entries of [feedparser.parse(url)];
    - [http_content url]: the content of the response of [requests.get];
    - [html_text html]: the text [BeautifulSoup] extracts;
    - [chat_answer req]: the content of the first choice of the completion;
    - [smtp_accepts], [smtp_authenticates], [smtp_delivers]: whether the
      connection, the login and the sending go through. *)
Record World := {
  os_environ : gmap string string;
  dotenv_file : gmap string string;
  clock : Z;
  amsterdam : tzinfo;
  feed_entries : string -> list Entry;
  http_content : string -> option string;
  html_text : string -> string;
  chat_answer : ChatRequest -> option string;
  smtp_accepts : string -> Z -> bool;
  smtp_authenticates : string -> string -> bool;
  smtp_delivers : EmailMessage -> bool }.

(** Is the event a call over the network? *)
Definition is_network (e : event) : bool :=
  match e with
  | FeedParse _ | HttpGet _ _ | ChatCreate _
  | SmtpConnect _ _ | SmtpLogin _ _ | SmtpSend _ => true
  | Print _ | MessageBuilt _ => false
  end.

Definition is_smtp (e : event) : bool :=
  match e with
  | SmtpConnect _ _ | SmtpLogin _ _ | SmtpSend _ => true
  | _ => false
  end.

(** Is the event one the mailer can perform? *)
Definition is_mailer (e : event) : bool :=
  match e with
  | Print _ | MessageBuilt _ => true
  | _ => is_smtp e
  end.

(** A computation reads and updates [os.environ], performs events, and
    either raises or returns. *)
Definition M (A : Type) : Type :=
  gmap string string -> list event * (exn + A * gmap string string).

Definition ret {A} (a : A) : M A := fun env => ([], inr (a, env)).

Definition bind {A B} (m : M A) (k : A -> M B) : M B := fun env =>
  match m env with
  | (t, inl e) => (t, inl e)
  | (t, inr (a, env')) => let (t', r) := k a env' in ((t ++ t')%list, r)
  end.

Definition raise {A} (e : exn) : M A := fun _ => ([], inl e).

Definition emit (ev : event) : M unit := fun env => ([ev], inr (tt, env)).

Declare Scope py_scope.
Delimit Scope py_scope with py.
Notation "'let*' x ':=' c 'in' k" := (bind c (fun x => k))
  (at level 10, x pattern, c at level 100, k at level 200) : py_scope.
Notation "c ';;;' k" := (bind c (fun _ => k))
  (at level 100, k at level 200, right associativity) : py_scope.
Local Open Scope py_scope.

(** [for x in l: body], with the loop-carried variables as [s]. *)
Fixpoint for_each {A S} (l : list A) (body : S -> A -> M S) (s : S) : M S :=
  match l with
  | [] => ret s
  | x :: r => let* s' := body s x in for_each r body s'
  end.

(** The events of a run and how it ended. *)
Inductive outcome := Returned | Raised (e : exn).

Definition trace_of {A} (r : list event * (exn + A * gmap string string))
  : list event := fst r.

Definition outcome_of {A} (r : list event * (exn + A * gmap string string))
  : outcome :=
  match snd r with inl e => Raised e | inr _ => Returned end.

(** *** Primitive operations *)

Definition print (line : string) : M unit := emit (Print line).

(** [os.getenv(name)] *)
Definition getenv (name : string) : M (option string) :=
  fun env => ([], inr (env !! name, env)).

(** [load_dotenv()]: the names of the [.env] file that [os.environ] does not
    hold yet are added to it. *)
Definition load_dotenv (w : World) : M unit :=
  fun env => ([], inr (tt, env ∪ dotenv_file w)).

(** The string held by a variable that passed a truth test. *)
Definition the (o : option string) : string := default "" o.

(** [feedparser.parse(url).entries] *)
Definition feedparser_parse (w : World) (url : string) : M (list Entry) :=
  emit (FeedParse url) ;;; ret (feed_entries w url).

(** [requests.get(url, timeout=t).content] *)
Definition requests_get (w : World) (url : string) (timeout : Z) : M string :=
  emit (HttpGet url timeout) ;;;
  match http_content w url with
  | Some c => ret c
  | None => raise RequestException
  end.

(** [openai.chat.completions.create(...).choices[0].message.content] *)
Definition chat_completions_create (w : World) (req : ChatRequest) : M string :=
  emit (ChatCreate req) ;;;
  match chat_answer w req with
  | Some c => ret c
  | None => raise OpenAIError
  end.

(** [int(s)] *)
Definition int (s : string) : M Z :=
  match PyStr.int s with
  | Some n => ret n
  | None => raise ValueError
  end.

(** ** The script *)

(** *** [get_summary_length] *)

Definition invalid_length_message : string :=
  "Invalid summary length. Please set RSS_FEED_SUMMARY_LENGTH to Short, Medium, or Long in your .env file.".

Definition get_summary_length (rss_feed_summary_length : string) : M Z :=
  if (rss_feed_summary_length =? "Short")%string then ret 500
  else if (rss_feed_summary_length =? "Medium")%string then ret 1000
  else if (rss_feed_summary_length =? "Long")%string then ret 1500
  else print invalid_length_message ;;; ret 1000.

(** *** [load_feeds_info] *)

Definition missing_feed_message : string :=
  "Please set RSS_FEED_URL and RSS_FEED_SUMMARY_LENGTH in your .env file.".

Definition load_feeds_info (w : World) : M (option string * option string) :=
  load_dotenv w ;;;
  let* rss_feed_url := getenv "RSS_FEED_URL" in
  let* rss_feed_summary_length := getenv "RSS_FEED_SUMMARY_LENGTH" in
  if negb (PyStr.truthy rss_feed_url)
     || negb (PyStr.truthy rss_feed_summary_length)
  then print missing_feed_message ;;; ret (None, None)
  else ret (rss_feed_url, rss_feed_summary_length).

(** *** [read_rss_feed] *)

(** [entry.tags[0]] *)
Definition first_tag (entry : Entry) : M Tag :=
  match tags entry with
  | None => raise (AttributeError "tags")
  | Some [] => raise IndexError
  | Some (t :: _) => ret t
  end.

(** The body of the loop over [feed.entries]. *)
Definition filter_entry (tz : tzinfo) (yesterday_ams : date)
    (filtered_entries : list Entry) (entry : Entry) : M (list Entry) :=
  match published_parsed entry with
  | Some parsed =>
      let published_dt_utc := datetime_utc parsed in
      let published_dt_ams := astimezone tz published_dt_utc in
      let published_date_ams := date_of published_dt_ams in
      if date_eqb published_date_ams yesterday_ams then
        let* tag := first_tag entry in
        if negb (bool_decide (term tag = Some "Software"))
        then ret (filtered_entries ++ [entry])%list
        else ret filtered_entries
      else ret filtered_entries
  | None => ret filtered_entries
  end.

Definition read_rss_feed (w : World) (url : string) : M (list Entry) :=
  let* feed := feedparser_parse w url in
  let amsterdam_tz := amsterdam w in
  let now_ams := astimezone amsterdam_tz (clock w) in
  let yesterday_ams := date_of (minus_days now_ams 1) in
  for_each feed (filter_entry amsterdam_tz yesterday_ams) [].

(** *** [send_email] *)

Definition missing_mail_message : string :=
  "Please set SMTP_SERVER, SMTP_PORT, SMTP_USER, SMTP_SENDER, SMTP_PASSWORD, and RECIPIENT_EMAIL in your .env file.".

Definition separator : string :=
  "=========================================================".

(** What one pass of the loop over [complete_summary] adds to [body]. *)
Definition block (item : ArticleSummary) : string :=
  "<h2>" +:+ item_title item +:+ "</h2>" +:+ PyStr.nl
  +:+ "<h3>Published on: " +:+ item_published item +:+ "</h3>" +:+ PyStr.nl
  +:+ "<h3>Summary:</h3>" +:+ PyStr.nl
  +:+ item_summary item +:+ "<p>&nbsp;</p>" +:+ PyStr.nl
  +:+ "<a href=" +:+ PyStr.dquote +:+ item_link item +:+ PyStr.dquote
  +:+ ">Read more</a><p>&nbsp;</p>" +:+ PyStr.nl +:+ PyStr.nl
  +:+ separator +:+ PyStr.nl.

Definition digest_body (complete_summary : list ArticleSummary) : string :=
  fold_left (fun body item => body +:+ block item) complete_summary "".

Definition subject : string := "Summary of Tweaker RSS Feed Articles".

(** The [with smtplib.SMTP_SSL(...)] statement. *)
Definition smtp_session (w : World) (host : string) (port : Z)
    (user password : string) (msg : EmailMessage) : M unit :=
  emit (SmtpConnect host port) ;;;
  if negb (smtp_accepts w host port) then raise SMTPException else
  emit (SmtpLogin user password) ;;;
  if negb (smtp_authenticates w user password) then raise SMTPException else
  emit (SmtpSend msg) ;;;
  if negb (smtp_delivers w msg) then raise SMTPException else ret tt.

Definition send_email (w : World) (complete_summary : list ArticleSummary)
  : M unit :=
  let* smtp_server := getenv "SMTP_SERVER" in
  let* smtp_port := getenv "SMTP_PORT" in
  let* smtp_user := getenv "SMTP_USER" in
  let* smtp_password := getenv "SMTP_PASSWORD" in
  let* smtp_sender := getenv "SENDER_EMAIL" in
  let* recipient_email := getenv "RECIPIENT_EMAIL" in
  if negb (forallb PyStr.truthy
             [smtp_server; smtp_port; smtp_user; smtp_password;
              recipient_email; smtp_sender])
  then print missing_mail_message
  else
    let body := digest_body complete_summary in
    let msg := {| msg_content := body; msg_subtype := "html";
                  msg_subject := subject;
                  msg_from := the smtp_sender;
                  msg_to := the recipient_email |} in
    emit (MessageBuilt msg) ;;;
    let* port := int (the smtp_port) in
    smtp_session w (the smtp_server) port (the smtp_user) (the smtp_password)
      msg.

(** *** [main] *)

Definition missing_key_message : string :=
  "Please set OPENAI_API_KEY in your .env file.".

Definition summary_request (summary_length : Z) (article_content : string)
  : ChatRequest :=
  {| model := "gpt-3.5-turbo";
     messages :=
       [ {| role := "system";
            content := "You are a helpful assistant that summarizes articles." |};
         {| role := "user";
            content := "Summarize the following article:" +:+ PyStr.nl
                       +:+ PyStr.nl +:+ article_content |} ];
     max_tokens := summary_length;
     temperature := 7 # 10 |}.

(** The body of the loop over the filtered feed.  The local variable
    [complete_summary] is [None] as long as no assignment has bound it. *)
Definition summarize_entry (w : World) (summary_length : Z)
    (complete_summary : option (list ArticleSummary)) (entry : Entry)
  : M (option (list ArticleSummary)) :=
  let title := title entry in
  let link := link entry in
  let published := published entry in
  let* response := requests_get w link 10 in
  let article_content := html_text w response in
  let* response :=
    chat_completions_create w (summary_request summary_length article_content) in
  let generated_summary := PyStr.strip response in
  let complete_summary :=
    match complete_summary with
    | None => []
    | Some l => l
    end in
  ret (Some (complete_summary
             ++ [ {| item_title := title; item_published := published;
                     item_link := link; item_summary := generated_summary |} ])%list).

Definition main (w : World) : M unit :=
  let* api_key := getenv "OPENAI_API_KEY" in
  if negb (PyStr.truthy api_key) then print missing_key_message
  else
    let* (rss_feed_url, rss_feed_summary_length) := load_feeds_info w in
    match rss_feed_url, rss_feed_summary_length with
    | Some rss_feed_url, Some rss_feed_summary_length =>
        let* feed := read_rss_feed w rss_feed_url in
        let* summary_length := get_summary_length rss_feed_summary_length in
        let* complete_summary :=
          for_each feed (summarize_entry w summary_length) None in
        match complete_summary with
        | Some complete_summary => send_email w complete_summary
        | None => raise (UnboundLocalError "complete_summary")
        end
    | _, _ => ret tt
    end.

(** One run of the script in a world. *)
Definition run (w : World) : list event * (exn + unit * gmap string string) :=
  main w (os_environ w).

(** ** Reading the model *)

(** *** What the selector is specified to keep

    The following definitions follow the words of the specification; the
    theorems below compare them with [read_rss_feed]. *)

Module Selector.

(** Yesterday's date on the Amsterdam wall clock. *)
Definition yesterday (w : World) : date :=
  date_of (minus_days (astimezone (amsterdam w) (clock w)) 1).

(** The calendar date of the entry once its UTC time stamp is converted to
    Amsterdam time; [None] without a parsed time stamp. *)
Definition published_date_ams (w : World) (e : Entry) : option date :=
  (fun t => date_of (astimezone (amsterdam w) (datetime_utc t)))
    <$> published_parsed e.

(** The calendar date of the time stamp as it stands, in UTC. *)
Definition published_date_utc (e : Entry) : option date :=
  (fun t => date_of (datetime_utc t)) <$> published_parsed e.

Definition published_yesterday (w : World) (e : Entry) : bool :=
  match published_date_ams w e with
  | Some d => date_eqb d (yesterday w)
  | None => false
  end.

(** The term of the first category tag, when there is a first tag. *)
Definition first_term (e : Entry) : option (option string) :=
  match tags e with
  | Some (t :: _) => Some (term t)
  | _ => None
  end.

Definition untagged (e : Entry) : Prop :=
  tags e = None \/ tags e = Some [].

(** The entry has a parsed time stamp dated yesterday in Amsterdam and a
    first tag whose term is not "Software". *)
Definition qualifies (w : World) (e : Entry) : bool :=
  published_yesterday w e
  && match first_term e with
     | Some t => negb (bool_decide (t = Some "Software"))
     | None => false
     end.

(** The selector answers with a sequence that holds exactly the qualifying
    entries of the feed. *)
Definition selects_exactly (w : World) (url : string) : Prop :=
  forall env, exists t filtered env',
    read_rss_feed w url env = (t, inr (filtered, env'))
    /\ forall e, In e filtered <-> In e (feed_entries w url) /\ qualifies w e = true.

End Selector.

(** *** Configuration *)

Module Config.

(** The six values [send_email] tests, in the order of its [all]. *)
Definition mail_settings (env : gmap string string) : list (option string) :=
  [ env !! "SMTP_SERVER"; env !! "SMTP_PORT"; env !! "SMTP_USER";
    env !! "SMTP_PASSWORD"; env !! "RECIPIENT_EMAIL"; env !! "SENDER_EMAIL" ].

Definition mail_configured (env : gmap string string) : bool :=
  forallb PyStr.truthy (mail_settings env).

(** [os.environ] once [load_dotenv] has run. *)
Definition loaded (w : World) : gmap string string :=
  os_environ w ∪ dotenv_file w.

Definition key_configured (w : World) : bool :=
  PyStr.truthy (os_environ w !! "OPENAI_API_KEY").

Definition feed_configured (w : World) : bool :=
  PyStr.truthy (loaded w !! "RSS_FEED_URL")
  && PyStr.truthy (loaded w !! "RSS_FEED_SUMMARY_LENGTH").

(** The budget the specification gives for a preset: 500 for Short, 1000
    for Medium, 1500 for Long, and the Medium value for any other. *)
Definition budget (preset : string) : Z :=
  if (preset =? "Short")%string then 500
  else if (preset =? "Long")%string then 1500
  else 1000.

(** Every name the script reads. *)
Definition required_names : list string :=
  [ "OPENAI_API_KEY"; "RSS_FEED_URL"; "RSS_FEED_SUMMARY_LENGTH";
    "SMTP_SERVER"; "SMTP_PORT"; "SMTP_USER"; "SMTP_PASSWORD";
    "SENDER_EMAIL"; "RECIPIENT_EMAIL" ].

(** A run that stops at a configuration check: it printed a message, made
    no call over the network, and returned. *)
Definition stops_at_check (w : World) : Prop :=
  (exists msg, In (Print msg) (trace_of (run w)))
  /\ Forall (fun ev => is_network ev = false) (trace_of (run w))
  /\ outcome_of (run w) = Returned.

(** Whichever required name is absent, the run stops at a check. *)
Definition checked_up_front (w : World) : Prop :=
  forall name, In name required_names -> loaded w !! name = None ->
    stops_at_check w.

(** The run prints [msg] and returns. *)
Definition reports (w : World) (msg : string) : Prop :=
  In (Print msg) (trace_of (run w)) /\ outcome_of (run w) = Returned.

(** Each missing group is reported by its own message, and the run
    returns. *)
Definition reports_missing_group (w : World) : Prop :=
  (key_configured w = false -> reports w missing_key_message)
  /\ (key_configured w = true -> feed_configured w = false ->
      reports w missing_feed_message)
  /\ (key_configured w = true -> feed_configured w = true ->
      mail_configured (loaded w) = false ->
      reports w missing_mail_message).

End Config.

(** *** The digest *)

Module Mailer.

(** The blocks of a list of summaries, one after the other. *)
Definition blocks (items : list ArticleSummary) : string :=
  fold_right String.append "" (map block items).

(** The message [send_email] builds in the environment [env]. *)
Definition digest (env : gmap string string)
    (complete_summary : list ArticleSummary) : EmailMessage :=
  {| msg_content := digest_body complete_summary;
     msg_subtype := "html";
     msg_subject := subject;
     msg_from := the (env !! "SENDER_EMAIL");
     msg_to := the (env !! "RECIPIENT_EMAIL") |}.

(** The port [send_email] connects to, when the setting reads as one. *)
Definition port (env : gmap string string) : option Z :=
  PyStr.int (the (env !! "SMTP_PORT")).

(** The events of a session that goes through. *)
Definition session (env : gmap string string) (p : Z) (msg : EmailMessage)
  : list event :=
  [ SmtpConnect (the (env !! "SMTP_SERVER")) p;
    SmtpLogin (the (env !! "SMTP_USER")) (the (env !! "SMTP_PASSWORD"));
    SmtpSend msg ].

(** The transport takes the connection, the login and the message. *)
Definition transport_ok (w : World) (env : gmap string string) (p : Z)
    (msg : EmailMessage) : bool :=
  smtp_accepts w (the (env !! "SMTP_SERVER")) p
  && smtp_authenticates w (the (env !! "SMTP_USER"))
       (the (env !! "SMTP_PASSWORD"))
  && smtp_delivers w msg.

End Mailer.

(** *** The summarizer, collaborators answering *)

Module Summarizer.

(** The summary the loop stores for an entry when the article fetch and the
    model call both answer. *)
Definition summary_of (w : World) (summary_length : Z) (e : Entry)
  : option ArticleSummary :=
  c ← http_content w (link e);
  a ← chat_answer w (summary_request summary_length (html_text w c));
  Some {| item_title := title e; item_published := published e;
          item_link := link e; item_summary := PyStr.strip a |}.

(** The events of one pass of the loop that runs to its end. *)
Definition events_of (w : World) (summary_length : Z) (e : Entry)
  : list event :=
  match http_content w (link e) with
  | Some c =>
      [ HttpGet (link e) 10;
        ChatCreate (summary_request summary_length (html_text w c)) ]
  | None => [ HttpGet (link e) 10 ]
  end.

(** One pass of the loop in [main] that does not raise, as a step from the
    entries still to visit and the local [complete_summary] to the next
    such pair. *)
Inductive step (w : World) (summary_length : Z)
  : relation (list Entry * option (list ArticleSummary)) :=
| step_entry e rest acc acc' env t env' :
    summarize_entry w summary_length acc e env = (t, inr (acc', env')) ->
    step w summary_length (e :: rest, acc) (rest, acc').

(** The summaries collected so far. *)
Definition collected (acc : option (list ArticleSummary))
  : list ArticleSummary := default [] acc.

(** [item] was made from [e]. *)
Definition made_from (item : ArticleSummary) (e : Entry) : Prop :=
  item_title item = title e /\ item_published item = published e
  /\ item_link item = link e.

End Summarizer.

(** *** The run after the configuration checks

    What [main] does once the key, the feed address and the preset have
    passed their tests: the second branch of its [match], word for word. *)

Definition pipeline (w : World) (rss_feed_url rss_feed_summary_length : string)
  : M unit :=
  let* feed := read_rss_feed w rss_feed_url in
  let* summary_length := get_summary_length rss_feed_summary_length in
  let* complete_summary :=
    for_each feed (summarize_entry w summary_length) None in
  match complete_summary with
  | Some complete_summary => send_email w complete_summary
  | None => raise (UnboundLocalError "complete_summary")
  end.

(** *** Traces and results of computations

    [sat m env P Q]: started in [env], the computation [m] performs only
    events that satisfy [P], and when it returns, its value and the
    environment it leaves satisfy [Q]. *)

Definition sat {A} (m : M A) (env : gmap string string)
    (P : event -> Prop) (Q : A -> gmap string string -> Prop) : Prop :=
  Forall P (fst (m env))
  /\ forall a env', snd (m env) = inr (a, env') -> Q a env'.

(** The errors the filter loop can raise. *)
Definition tag_error (x : exn) : Prop :=
  x = AttributeError "tags" \/ x = IndexError.

(** Every state the loop passes through holds the summaries of the entries
    visited so far, in their order. *)
Definition visited (w : World) (len : Z) (entries : list Entry)
    (cfg : list Entry * option (list ArticleSummary)) : Prop :=
  exists done,
    entries = (done ++ fst cfg)%list
    /\ Forall2 (fun e item => Summarizer.summary_of w len e = Some item)
         done (Summarizer.collected (snd cfg)).

(** *** Reading aids for the further properties *)

Module Reading.

(** An entry at which the filter loop raises: dated yesterday in Amsterdam
    and without a first tag. *)
Definition offending (w : World) (e : Entry) : bool :=
  Selector.published_yesterday w e
  && match Selector.first_term e with Some _ => false | None => true end.

(** The exception [entry.tags[0]] raises on an entry without a first tag. *)
Definition tag_exception (e : Entry) : exn :=
  match tags e with
  | None => AttributeError "tags"
  | Some _ => IndexError
  end.

(** The exception a pass of the summarizer loop ends with, if any. *)
Definition failure (w : World) (len : Z) (e : Entry) : option exn :=
  match http_content w (link e) with
  | None => Some RequestException
  | Some c =>
      match chat_answer w (summary_request len (html_text w c)) with
      | None => Some OpenAIError
      | Some _ => None
      end
  end.

(** What [get_summary_length] prints for a preset. *)
Definition warning (preset : string) : list event :=
  if (preset =? "Short")%string || (preset =? "Medium")%string
     || (preset =? "Long")%string
  then [] else [Print invalid_length_message].

(** The events of a run that come before the mailer is called. *)
Definition is_pipeline_event (ev : event) : bool :=
  match ev with
  | FeedParse _ | HttpGet _ _ | ChatCreate _ => true
  | Print line => (line =? invalid_length_message)%string
  | _ => false
  end.

Definition is_send (ev : event) : bool :=
  match ev with SmtpSend _ => true | _ => false end.

Definition is_fetch (ev : event) : bool :=
  match ev with HttpGet _ _ => true | _ => false end.

Definition is_model_call (ev : event) : bool :=
  match ev with ChatCreate _ => true | _ => false end.

(** The events of the summarizer loop over [entries] when every pass runs to
    its end. *)
Definition loop_events (w : World) (len : Z) (entries : list Entry)
  : list event :=
  concat (map (Summarizer.events_of w len) entries).

End Reading.

(** ** Sample worlds *)

Module Examples.

Definition settings : list (string * string) :=
  [ ("OPENAI_API_KEY", "sk-test");
    ("RSS_FEED_URL", "https://example.org/feed.xml");
    ("RSS_FEED_SUMMARY_LENGTH", "Short");
    ("SMTP_SERVER", "smtp.example.org"); ("SMTP_PORT", "465");
    ("SMTP_USER", "digest"); ("SMTP_PASSWORD", "secret");
    ("SENDER_EMAIL", "digest@example.org");
    ("RECIPIENT_EMAIL", "reader@example.org") ].

(** The settings without the one called [name]. *)
Definition settings_without (name : string) : list (string * string) :=
  List.filter (fun kv => negb (fst kv =? name)%string) settings.

(** The settings with [name] set to [value]. *)
Definition settings_with (name value : string) : list (string * string) :=
  (name, value) :: settings_without name.

Definition feed_url : string := "https://example.org/feed.xml".

Definition tagged (t : string) : option (list Tag) :=
  Some [ {| term := Some t |} ].

Definition entry (n : string) (parsed : option struct_time)
    (tg : option (list Tag)) : Entry :=
  {| title := "Article " +:+ n;
     link := "https://example.org/" +:+ n;
     published := "stamp " +:+ n;
     published_parsed := parsed;
     tags := tg |}.

(** The clock reads 2025-07-01 08:00 UTC, 10:00 in Amsterdam: yesterday is
    2025-06-30. *)
Definition morning : Z := datetime_utc (StructTime 2025 7 1 8 0 0).

Definition noon : option struct_time := Some (StructTime 2025 6 30 12 0 0).

(** A world whose collaborators all answer. *)
Definition world (env : list (string * string)) (feed : list Entry) : World :=
  {| os_environ := list_to_map env;
     dotenv_file := ∅;
     clock := morning;
     amsterdam := central_european;
     feed_entries := fun _ => feed;
     http_content := fun url => Some ("<p>" +:+ url +:+ "</p>");
     html_text := fun html => html;
     chat_answer := fun req => Some ("  A summary. " +:+ PyStr.nl);
     smtp_accepts := fun _ _ => true;
     smtp_authenticates := fun _ _ => true;
     smtp_delivers := fun _ => true |}.

(** The same world with the web unreachable. *)
Definition offline (env : list (string * string)) (feed : list Entry) : World :=
  {| os_environ := list_to_map env;
     dotenv_file := ∅;
     clock := morning;
     amsterdam := central_european;
     feed_entries := fun _ => feed;
     http_content := fun _ => None;
     html_text := fun html => html;
     chat_answer := fun req => Some "A summary.";
     smtp_accepts := fun _ _ => true;
     smtp_authenticates := fun _ _ => true;
     smtp_delivers := fun _ => true |}.

(** Three entries dated yesterday, tagged Tech, Software, Tech. *)
Definition first := entry "one" noon (tagged "Tech").
Definition second := entry "two" noon (tagged "Software").
Definition third := entry "three" noon (tagged "Tech").
Definition three_entries : list Entry := [first; second; third].

(** Entries around midnight.  [late_sunday] is stamped 2025-06-29 22:30
    UTC, which is 00:30 on 2025-06-30 in Amsterdam; [late_monday] is
    stamped 2025-06-30 23:30 UTC, which is 01:30 on 2025-07-01 there. *)
Definition late_sunday :=
  entry "sun" (Some (StructTime 2025 6 29 22 30 0)) (tagged "Tech").
Definition late_monday :=
  entry "mon" (Some (StructTime 2025 6 30 23 30 0)) (tagged "Tech").
Definition undated := entry "none" None (tagged "Tech").
Definition midnight_entries : list Entry :=
  [late_sunday; late_monday; undated; first].

(** An entry dated yesterday that carries no tag. *)
Definition bare := entry "bare" noon None.
Definition bare_list := entry "bare" noon (Some []).

(** Worlds for the cases the theorems are tried on. *)
Definition scenario : World := world settings three_entries.
Definition around_midnight : World := world settings midnight_entries.
Definition with_bare_entry : World := world settings [first; bare].
Definition empty_feed : World := world settings [].
Definition no_key : World := world (settings_without "OPENAI_API_KEY") [first].
Definition no_preset : World :=
  world (settings_without "RSS_FEED_SUMMARY_LENGTH") [first].
Definition no_server : World := world (settings_without "SMTP_SERVER") [first].
Definition no_server_offline : World :=
  offline (settings_without "SMTP_SERVER") [first].
Definition named_port : World := world (settings_with "SMTP_PORT" "smtps") [first].
Definition odd_preset : World :=
  world (settings_with "RSS_FEED_SUMMARY_LENGTH" "Tiny") [first].

End Examples.

(** ** Worlds for the further properties *)

Module Cases.

(** The three entries of the scenario, the article of the third one being
    unreachable. *)
Definition third_unreachable : World :=
  {| os_environ := list_to_map Examples.settings;
     dotenv_file := ∅;
     clock := Examples.morning;
     amsterdam := central_european;
     feed_entries := fun _ => Examples.three_entries;
     http_content := fun url =>
       if (url =? "https://example.org/three")%string then None
       else Some ("<p>" +:+ url +:+ "</p>");
     html_text := fun html => html;
     chat_answer := fun req => Some "A summary.";
     smtp_accepts := fun _ _ => true;
     smtp_authenticates := fun _ _ => true;
     smtp_delivers := fun _ => true |}.

(** The scenario with a mail server that refuses the connection. *)
Definition refusing : World :=
  {| os_environ := list_to_map Examples.settings;
     dotenv_file := ∅;
     clock := Examples.morning;
     amsterdam := central_european;
     feed_entries := fun _ => Examples.three_entries;
     http_content := fun url => Some ("<p>" +:+ url +:+ "</p>");
     html_text := fun html => html;
     chat_answer := fun req => Some "A summary.";
     smtp_accepts := fun _ _ => false;
     smtp_authenticates := fun _ _ => true;
     smtp_delivers := fun _ => true |}.

(** The feed address is set to the empty string in the process environment
    and to an address in the [.env] file; the preset comes from the file. *)
Definition shadowed : World :=
  {| os_environ := list_to_map [("OPENAI_API_KEY", "sk-test"); ("RSS_FEED_URL", "")];
     dotenv_file :=
       list_to_map [("RSS_FEED_URL", "https://example.org/feed.xml");
                    ("RSS_FEED_SUMMARY_LENGTH", "Long")];
     clock := Examples.morning;
     amsterdam := central_european;
     feed_entries := fun _ => Examples.three_entries;
     http_content := fun url => Some ("<p>" +:+ url +:+ "</p>");
     html_text := fun html => html;
     chat_answer := fun req => Some "A summary.";
     smtp_accepts := fun _ _ => true;
     smtp_authenticates := fun _ _ => true;
     smtp_delivers := fun _ => true |}.

(** The summaries of the first and the third entry of the scenario. *)
Definition item_one : ArticleSummary :=
  {| item_title := "Article one"; item_published := "stamp one";
     item_link := "https://example.org/one"; item_summary := "A summary." |}.

Definition item_three : ArticleSummary :=
  {| item_title := "Article three"; item_published := "stamp three";
     item_link := "https://example.org/three"; item_summary := "A summary." |}.

End Cases.

(** ** Laws of the monad *)

Section MonadLaws.
Context {A B : Type}.
Implicit Types (m : M A) (k : A -> M B) (env : gmap string string).

Lemma bind_returns m k env t a env' :
  m env = (t, inr (a, env')) ->
  bind m k env = ((t ++ fst (k a env'))%list, snd (k a env')).
Proof. intros H. unfold bind. rewrite H. now destruct (k a env'). Qed.

Lemma bind_pure m k env a :
  m env = ([], inr (a, env)) -> bind m k env = k a env.
Proof. intros H. unfold bind. rewrite H. now destruct (k a env). Qed.

(** A bind that returns: both halves returned. *)
Lemma bind_inv_returns m k env t b env2 :
  bind m k env = (t, inr (b, env2)) ->
  exists t1 a env1 t2,
    m env = (t1, inr (a, env1)) /\ k a env1 = (t2, inr (b, env2))
    /\ t = (t1 ++ t2)%list.
Proof.
  unfold bind. destruct (m env) as [t1 [e | [a env1]]]; [discriminate |].
  destruct (k a env1) as [t2 r] eqn:Hk. intros [= <- ->].
  now exists t1, a, env1, t2.
Qed.

End MonadLaws.

(** ** The length preset *)

Lemma get_summary_length_other (s : string) env :
  s <> "Short" -> s <> "Medium" -> s <> "Long" ->
  get_summary_length s env = ([Print invalid_length_message], inr (1000, env)).
Proof.
  intros H1 H2 H3. unfold get_summary_length.
  apply String.eqb_neq in H1, H2, H3. now rewrite H1, H2, H3.
Qed.

(** ** Traces and results of computations *)

Section Sat.
Context {A B : Type}.
Implicit Types (P : event -> Prop) (env : gmap string string).

Lemma sat_ret (a : A) env P (Q : A -> gmap string string -> Prop) :
  Q a env -> sat (ret a) env P Q.
Proof. intros H. split; [constructor |]. now intros ? ? [= <- <-]. Qed.

Lemma sat_raise (e : exn) env P (Q : A -> gmap string string -> Prop) :
  sat (raise e) env P Q.
Proof. split; [constructor | discriminate]. Qed.

Lemma sat_bind (m : M A) (k : A -> M B) env P
    (Q : A -> gmap string string -> Prop)
    (R : B -> gmap string string -> Prop) :
  sat m env P Q ->
  (forall a env', Q a env' -> sat (k a) env' P R) ->
  sat (bind m k) env P R.
Proof.
  intros [Ht Hq] Hk. unfold sat, bind in *.
  destruct (m env) as [t [e | [a env']]]; simpl in *.
  - split; [assumption | discriminate].
  - destruct (Hk a env' (Hq _ _ eq_refl)) as [Ht' Hr].
    destruct (k a env') as [t' r]; simpl in *.
    split; [now apply Forall_app | assumption].
Qed.

End Sat.

(** The loop rule: [I] holds of the loop-carried variables before and after
    every pass. *)
Lemma sat_for_each {A S} (l : list A) (body : S -> A -> M S) (s : S) env
    (P : event -> Prop) (I : S -> gmap string string -> Prop) :
  (forall s x env, In x l -> I s env -> sat (body s x) env P I) ->
  I s env -> sat (for_each l body s) env P I.
Proof.
  revert s env. induction l as [| x l IH]; intros s env Hbody Hi; simpl.
  - now apply sat_ret.
  - eapply sat_bind.
    + apply Hbody; [now left | eassumption].
    + intros s' env' Hi'. apply IH; [| assumption].
      intros ? ? ? Hin. apply Hbody. now right.
Qed.

(** ** The selector *)

Lemma date_eqb_eq (a b : date) : date_eqb a b = true <-> a = b.
Proof.
  destruct a as [y m d], b as [y' m' d']. unfold date_eqb; simpl.
  rewrite !andb_true_iff, !Z.eqb_eq. split.
  - now intros [[-> ->] ->].
  - now intros [= -> -> ->].
Qed.

Lemma published_yesterday_spec (w : World) (e : Entry) :
  Selector.published_yesterday w e = true
  <-> Selector.published_date_ams w e = Some (Selector.yesterday w).
Proof.
  unfold Selector.published_yesterday.
  destruct (Selector.published_date_ams w e) as [d |].
  - rewrite date_eqb_eq. split; congruence.
  - split; discriminate.
Qed.

Lemma qualifies_spec (w : World) (e : Entry) :
  Selector.qualifies w e = true
  <-> Selector.published_date_ams w e = Some (Selector.yesterday w)
      /\ exists t, Selector.first_term e = Some t /\ t <> Some "Software".
Proof.
  unfold Selector.qualifies. rewrite andb_true_iff, published_yesterday_spec.
  destruct (Selector.first_term e) as [t |].
  - rewrite negb_true_iff, bool_decide_eq_false. split.
    + intros [H1 H2]. eauto.
    + intros [H1 (t' & [= <-] & H2)]. auto.
  - split; [intros [_ [=]] | intros [_ (t & [=] & _)]].
Qed.

Lemma filter_head {A} (f : A -> bool) (x : A) (l : list A) :
  List.filter f (x :: l) = (List.filter f [x] ++ List.filter f l)%list.
Proof. cbn [List.filter]. now destruct (f x). Qed.

(** One pass of the filter loop, by cases on the entry. *)
Lemma filter_entry_cases (w : World) (acc : list Entry) (e : Entry) env :
  filter_entry (amsterdam w) (Selector.yesterday w) acc e env
  = if Selector.published_yesterday w e then
      match Selector.first_term e with
      | Some _ =>
          ([], inr ((acc ++ List.filter (Selector.qualifies w) [e])%list, env))
      | None =>
          ([], inl (match tags e with
                    | None => AttributeError "tags"
                    | Some _ => IndexError
                    end))
      end
    else ([], inr ((acc ++ List.filter (Selector.qualifies w) [e])%list, env)).
Proof.
  assert (Hq : List.filter (Selector.qualifies w) [e]
               = if Selector.published_yesterday w e
                    && match Selector.first_term e with
                       | Some t => negb (bool_decide (t = Some "Software"))
                       | None => false
                       end
                 then [e] else []) by reflexivity.
  rewrite Hq; clear Hq.
  unfold filter_entry, Selector.published_yesterday,
    Selector.published_date_ams, Selector.first_term, first_tag.
  destruct (published_parsed e) as [p |]; cbn [fmap option_fmap option_map].
  - destruct (date_eqb _ _); cbn [andb].
    + destruct (tags e) as [[| tg tgs] |]; try reflexivity.
      rewrite (bind_pure _ _ env tg) by reflexivity.
      destruct (bool_decide (term tg = Some "Software")); cbn [negb];
        [now rewrite app_nil_r | reflexivity].
    + now rewrite app_nil_r.
  - now rewrite app_nil_r.
Qed.

Lemma filter_loop_tagged (w : World) (feed acc : list Entry) env :
  Forall (fun e => Selector.published_yesterday w e = true ->
                   Selector.first_term e <> None) feed ->
  for_each feed (filter_entry (amsterdam w) (Selector.yesterday w)) acc env
  = ([], inr ((acc ++ List.filter (Selector.qualifies w) feed)%list, env)).
Proof.
  intros H. revert acc. induction H as [| e feed He _ IH]; intros acc.
  - simpl. now rewrite app_nil_r.
  - cbn [for_each]. erewrite bind_pure.
    + now rewrite IH, <- app_assoc, <- filter_head.
    + rewrite filter_entry_cases.
      destruct (Selector.published_yesterday w e); [| reflexivity].
      destruct (Selector.first_term e); [reflexivity | now destruct He].
Qed.

Lemma filter_loop_returns (w : World) (feed acc : list Entry) env t res env' :
  for_each feed (filter_entry (amsterdam w) (Selector.yesterday w)) acc env
  = (t, inr (res, env')) ->
  res = (acc ++ List.filter (Selector.qualifies w) feed)%list
  /\ env' = env.
Proof.
  revert acc t env. induction feed as [| e feed IH]; intros acc t env; simpl.
  - intros [= _ <- <-]. now rewrite app_nil_r.
  - intros H. apply bind_inv_returns in H as (t1 & a & env1 & t2 & H1 & H2 & _).
    apply IH in H2 as [-> ->]. rewrite filter_entry_cases in H1.
    assert (a = (acc ++ List.filter (Selector.qualifies w) [e])%list
            /\ env1 = env) as [-> ->].
    { destruct (Selector.published_yesterday w e);
        [destruct (Selector.first_term e) |]; split; congruence. }
    now rewrite <- app_assoc, <- filter_head.
Qed.

(** The filter loop performs no event. *)
Lemma filter_loop_silent (w : World) (feed acc : list Entry) env :
  fst (for_each feed (filter_entry (amsterdam w) (Selector.yesterday w)) acc env)
  = [].
Proof.
  revert acc. induction feed as [| e feed IH]; intros acc; [reflexivity |].
  cbn [for_each]. unfold bind. rewrite filter_entry_cases.
  destruct (Selector.published_yesterday w e);
    [destruct (Selector.first_term e) |]; try reflexivity;
    specialize (IH (acc ++ List.filter (Selector.qualifies w) [e])%list);
    destruct (for_each feed _ _ env); cbn [fst] in *; now subst.
Qed.

Lemma filter_loop_untagged (w : World) (feed acc : list Entry) env :
  Exists (fun e => Selector.published_yesterday w e = true
                   /\ Selector.untagged e) feed ->
  exists x,
    for_each feed (filter_entry (amsterdam w) (Selector.yesterday w)) acc env
    = ([], inl x) /\ tag_error x.
Proof.
  intros H. revert acc.
  induction H as [e feed [Hy Hu] | e feed _ IH]; intros acc;
    cbn [for_each]; unfold bind; rewrite filter_entry_cases.
  - rewrite Hy. unfold tag_error.
    destruct Hu as [Hu | Hu]; unfold Selector.first_term; rewrite Hu; eauto.
  - destruct (Selector.published_yesterday w e);
      [destruct (Selector.first_term e) |].
    + destruct (IH (acc ++ List.filter (Selector.qualifies w) [e])%list)
        as (x & -> & Hx). eauto.
    + unfold tag_error. destruct (tags e); eauto.
    + destruct (IH (acc ++ List.filter (Selector.qualifies w) [e])%list)
        as (x & -> & Hx). eauto.
Qed.

Lemma read_rss_feed_unfold (w : World) (url : string) env :
  read_rss_feed w url env
  = let r := for_each (feed_entries w url)
               (filter_entry (amsterdam w) (Selector.yesterday w)) [] env in
    (FeedParse url :: fst r, snd r).
Proof.
  unfold read_rss_feed, feedparser_parse, bind, emit, ret; simpl.
  now destruct (for_each _ _ _ _).
Qed.

(** ** The summarizer loop *)

Lemma summarize_entry_cases (w : World) (len : Z)
    (acc : option (list ArticleSummary)) (e : Entry) env :
  summarize_entry w len acc e env
  = match http_content w (link e) with
    | None => ([HttpGet (link e) 10], inl RequestException)
    | Some c =>
        let req := summary_request len (html_text w c) in
        match chat_answer w req with
        | None => ([HttpGet (link e) 10; ChatCreate req], inl OpenAIError)
        | Some a =>
            ([HttpGet (link e) 10; ChatCreate req],
             inr (Some (Summarizer.collected acc
                        ++ [ {| item_title := title e;
                                item_published := published e;
                                item_link := link e;
                                item_summary := PyStr.strip a |} ])%list,
                  env))
        end
    end.
Proof.
  unfold summarize_entry, requests_get, chat_completions_create, bind, emit,
    ret, raise, Summarizer.collected.
  destruct (http_content w (link e)) as [c |]; [| reflexivity].
  destruct (chat_answer w _) as [a |]; [| reflexivity].
  now destruct acc.
Qed.

(** A pass that returns stored the summary of its entry. *)
Lemma summarize_entry_returns (w : World) (len : Z)
    (acc acc' : option (list ArticleSummary)) (e : Entry) env t env' :
  summarize_entry w len acc e env = (t, inr (acc', env')) ->
  exists item,
    Summarizer.summary_of w len e = Some item
    /\ acc' = Some (Summarizer.collected acc ++ [item])%list
    /\ t = Summarizer.events_of w len e /\ env' = env.
Proof.
  rewrite summarize_entry_cases.
  unfold Summarizer.summary_of, Summarizer.events_of.
  destruct (http_content w (link e)) as [c |]; [| discriminate].
  cbn [mbind option_bind].
  destruct (chat_answer w _) as [a |]; [| discriminate].
  intros [= <- <- <-]. eauto.
Qed.

(** When both collaborators answer for every entry, the loop returns the
    summaries in the order of the entries. *)
Lemma loop_answers (w : World) (len : Z) (entries : list Entry)
    (items : list ArticleSummary) (acc : option (list ArticleSummary)) env :
  Forall2 (fun e item => Summarizer.summary_of w len e = Some item)
    entries items ->
  for_each entries (summarize_entry w len) acc env
  = (concat (map (Summarizer.events_of w len) entries),
     inr (match entries with
          | [] => acc
          | _ => Some (Summarizer.collected acc ++ items)%list
          end, env)).
Proof.
  intros H. revert acc. induction H as [| e item entries items He H IH];
    intros acc; [reflexivity |].
  cbn [for_each map concat].
  assert (Hs : summarize_entry w len acc e env
               = (Summarizer.events_of w len e,
                  inr (Some (Summarizer.collected acc ++ [item])%list, env))).
  { rewrite summarize_entry_cases. revert He.
    unfold Summarizer.summary_of, Summarizer.events_of.
    destruct (http_content w (link e)) as [c |]; [| discriminate].
    cbn [mbind option_bind].
    destruct (chat_answer w _) as [a |]; [| discriminate].
    now intros [= <-]. }
  rewrite (bind_returns _ _ _ _ _ _ Hs), IH. cbn [fst snd].
  destruct H; [reflexivity |].
  unfold Summarizer.collected; cbn [from_option id]. now rewrite <- app_assoc.
Qed.

Lemma step_visited (w : World) (len : Z) (entries : list Entry) cfg cfg' :
  visited w len entries cfg -> Summarizer.step w len cfg cfg' ->
  visited w len entries cfg'.
Proof.
  intros (done & Heq & Hall) Hstep. destruct Hstep as [e rest acc acc' env t env' Hs].
  apply summarize_entry_returns in Hs as (item & Hitem & -> & _ & _).
  exists (done ++ [e])%list. cbn [fst snd] in *. split.
  - now rewrite <- app_assoc.
  - unfold Summarizer.collected at 1; cbn [from_option id].
    apply Forall2_app; [assumption |].
    now repeat constructor.
Qed.

Lemma rtc_visited (w : World) (len : Z) (entries : list Entry) cfg :
  rtc (Summarizer.step w len) (entries, None) cfg -> visited w len entries cfg.
Proof.
  revert cfg. apply rtc_ind_r.
  - exists []. split; [reflexivity | constructor].
  - intros ? ? _ Hstep Hv. eapply step_visited; eassumption.
Qed.

(** The loop of [main] moves along [Summarizer.step]. *)
Lemma loop_steps (w : World) (len : Z) (entries : list Entry) acc env t acc' env' :
  for_each entries (summarize_entry w len) acc env = (t, inr (acc', env')) ->
  rtc (Summarizer.step w len) (entries, acc) ([], acc').
Proof.
  revert acc env t. induction entries as [| e entries IH]; intros acc env t H.
  - cbn in H. injection H as _ <- _. constructor.
  - cbn [for_each] in H.
    apply bind_inv_returns in H as (t1 & a & env1 & t2 & H1 & H2 & _).
    eapply rtc_l; [econstructor; eassumption | eauto].
Qed.

Lemma loop_returns (w : World) (len : Z) (entries : list Entry) acc env t acc' env' :
  for_each entries (summarize_entry w len) acc env = (t, inr (acc', env')) ->
  env' = env
  /\ exists items,
       Forall2 (fun e item => Summarizer.summary_of w len e = Some item)
         entries items
       /\ acc' = match entries with
                 | [] => acc
                 | _ => Some (Summarizer.collected acc ++ items)%list
                 end.
Proof.
  revert acc env t. induction entries as [| e entries IH]; intros acc env t H.
  - cbn in H. injection H as _ <- <-. split; [reflexivity |].
    exists []. split; [constructor | reflexivity].
  - cbn [for_each] in H.
    apply bind_inv_returns in H as (t1 & a & env1 & t2 & H1 & H2 & _).
    apply summarize_entry_returns in H1 as (item & Hitem & -> & _ & ->).
    apply IH in H2 as [-> (items & Hitems & ->)]. split; [reflexivity |].
    exists (item :: items). split; [now constructor |].
    destruct Hitems; [reflexivity |].
    unfold Summarizer.collected at 1; cbn [from_option id].
    now rewrite <- app_assoc.
Qed.

(** The events of the loop are the fetches and model calls of its entries. *)
Lemma loop_trace (w : World) (len : Z) (P : event -> Prop)
    (entries : list Entry) acc env :
  (forall e, In e entries -> Forall P (Summarizer.events_of w len e)) ->
  Forall P (fst (for_each entries (summarize_entry w len) acc env)).
Proof.
  intros H.
  refine (proj1 (sat_for_each entries _ acc env P (fun _ _ => True) _ I)).
  intros s e env0 Hin _. split; [| trivial].
  rewrite summarize_entry_cases. specialize (H e Hin).
  unfold Summarizer.events_of in H.
  destruct (http_content w (link e)) as [c |]; [| exact H].
  cbv zeta. destruct (chat_answer w _); exact H.
Qed.

(** ** The mailer *)

Lemma append_cons (x : ascii) (a b : string) :
  String x a +:+ b = String x (a +:+ b).
Proof. reflexivity. Qed.

Lemma append_assoc (a b c : string) : (a +:+ b) +:+ c = a +:+ (b +:+ c).
Proof.
  induction a as [| x a IH]; [reflexivity |].
  now rewrite !append_cons, IH.
Qed.

Lemma append_nil_r (a : string) : a +:+ "" = a.
Proof.
  induction a as [| x a IH]; [reflexivity |]. now rewrite append_cons, IH.
Qed.

Lemma digest_body_from (items : list ArticleSummary) (body : string) :
  fold_left (fun body item => body +:+ block item) items body
  = body +:+ Mailer.blocks items.
Proof.
  revert body. induction items as [| item items IH]; intros body.
  - cbn. now rewrite append_nil_r.
  - cbn [fold_left]. rewrite IH, append_assoc. reflexivity.
Qed.

(** The body of the digest is the blocks of the summaries, in their order. *)
Lemma digest_body_blocks (items : list ArticleSummary) :
  digest_body items = Mailer.blocks items.
Proof. unfold digest_body. now rewrite digest_body_from. Qed.

Lemma smtp_session_cases (w : World) (env : gmap string string) (p : Z)
    (msg : EmailMessage) :
  smtp_session w (the (env !! "SMTP_SERVER")) p (the (env !! "SMTP_USER"))
    (the (env !! "SMTP_PASSWORD")) msg env
  = if Mailer.transport_ok w env p msg
    then (Mailer.session env p msg, inr (tt, env))
    else (firstn
            (if negb (smtp_accepts w (the (env !! "SMTP_SERVER")) p) then 1%nat
             else if negb (smtp_authenticates w (the (env !! "SMTP_USER"))
                             (the (env !! "SMTP_PASSWORD")))
                  then 2%nat else 3%nat)
            (Mailer.session env p msg),
          inl SMTPException).
Proof.
  unfold smtp_session, Mailer.transport_ok, Mailer.session, bind, emit, ret, raise.
  destruct (smtp_accepts w _ p); [| reflexivity].
  destruct (smtp_authenticates w _ _); [| reflexivity].
  destruct (smtp_delivers w msg); reflexivity.
Qed.

Lemma send_email_cases (w : World) (items : list ArticleSummary) env :
  send_email w items env
  = if Config.mail_configured env then
      match Mailer.port env with
      | None => ([MessageBuilt (Mailer.digest env items)], inl ValueError)
      | Some p =>
          let r := smtp_session w (the (env !! "SMTP_SERVER")) p
                     (the (env !! "SMTP_USER")) (the (env !! "SMTP_PASSWORD"))
                     (Mailer.digest env items) env in
          (MessageBuilt (Mailer.digest env items) :: fst r, snd r)
      end
    else ([Print missing_mail_message], inr (tt, env)).
Proof.
  unfold send_email, Config.mail_configured, Config.mail_settings, Mailer.port.
  unfold bind at 1 2 3 4 5 6. unfold getenv.
  destruct (forallb PyStr.truthy _); cbn [negb]; [| reflexivity].
  fold (Mailer.digest env items).
  unfold bind, emit, int.
  destruct (PyStr.int _) as [p |]; [| reflexivity].
  unfold ret. cbv zeta.
  now destruct (smtp_session _ _ _ _ _ _ _).
Qed.

(** ** The configuration checks of [main] *)

Lemma run_no_key (w : World) :
  Config.key_configured w = false ->
  run w = ([Print missing_key_message], inr (tt, os_environ w)).
Proof.
  unfold Config.key_configured, run, main. intros H.
  unfold bind at 1. unfold getenv. now rewrite H.
Qed.

Lemma load_feeds_info_cases (w : World) env :
  load_feeds_info w env
  = let env' := env ∪ dotenv_file w in
    if PyStr.truthy (env' !! "RSS_FEED_URL")
       && PyStr.truthy (env' !! "RSS_FEED_SUMMARY_LENGTH")
    then ([], inr ((env' !! "RSS_FEED_URL", env' !! "RSS_FEED_SUMMARY_LENGTH"),
                   env'))
    else ([Print missing_feed_message], inr ((None, None), env')).
Proof.
  unfold load_feeds_info, bind, load_dotenv, getenv, print, emit, ret.
  cbv zeta.
  destruct (PyStr.truthy (_ !! "RSS_FEED_URL")),
    (PyStr.truthy (_ !! "RSS_FEED_SUMMARY_LENGTH")); reflexivity.
Qed.

Lemma run_no_feed (w : World) :
  Config.key_configured w = true -> Config.feed_configured w = false ->
  run w = ([Print missing_feed_message], inr (tt, Config.loaded w)).
Proof.
  unfold Config.key_configured, Config.feed_configured, run, main. intros Hk Hf.
  unfold bind at 1. unfold getenv at 1. rewrite Hk. cbn [negb].
  unfold bind. rewrite load_feeds_info_cases. cbv zeta.
  fold (Config.loaded w). now rewrite Hf.
Qed.

Lemma feed_configured_values (w : World) :
  Config.feed_configured w = true ->
  exists url preset,
    Config.loaded w !! "RSS_FEED_URL" = Some url
    /\ Config.loaded w !! "RSS_FEED_SUMMARY_LENGTH" = Some preset.
Proof.
  unfold Config.feed_configured. rewrite andb_true_iff. intros [H1 H2].
  destruct (Config.loaded w !! "RSS_FEED_URL") as [url |]; [| discriminate].
  destruct (Config.loaded w !! "RSS_FEED_SUMMARY_LENGTH") as [preset |];
    [| discriminate].
  eauto.
Qed.

Lemma run_configured (w : World) (url preset : string) :
  Config.key_configured w = true -> Config.feed_configured w = true ->
  Config.loaded w !! "RSS_FEED_URL" = Some url ->
  Config.loaded w !! "RSS_FEED_SUMMARY_LENGTH" = Some preset ->
  run w = pipeline w url preset (Config.loaded w).
Proof.
  unfold Config.key_configured, Config.feed_configured, run, main.
  intros Hk Hf Hu Hp.
  unfold bind at 1. unfold getenv at 1. rewrite Hk. cbn [negb].
  unfold bind at 1. rewrite load_feeds_info_cases. cbv zeta.
  fold (Config.loaded w). rewrite Hf, Hu, Hp.
  fold (pipeline w url preset).
  destruct (pipeline w url preset (Config.loaded w)). reflexivity.
Qed.

(** ** The run after the checks *)

Lemma get_summary_length_budget (preset : string) env :
  exists t,
    get_summary_length preset env = (t, inr (Config.budget preset, env))
    /\ (t = [] \/ t = [Print invalid_length_message]).
Proof.
  unfold get_summary_length, Config.budget.
  destruct (String.eqb_spec preset "Short") as [-> | _]; [eauto |].
  destruct (String.eqb_spec preset "Medium") as [-> | _]; [eauto |].
  destruct (String.eqb_spec preset "Long") as [-> | _]; eauto.
Qed.

(** The rule for [pipeline]: the events it can perform before the mailer,
    and the summaries the mailer is called with. *)
Lemma pipeline_sat (w : World) (url preset : string) env
    (P : event -> Prop) (Q : unit -> gmap string string -> Prop) :
  let filtered := List.filter (Selector.qualifies w) (feed_entries w url) in
  let len := Config.budget preset in
  P (FeedParse url) ->
  P (Print invalid_length_message) ->
  (forall e, In e filtered -> Forall P (Summarizer.events_of w len e)) ->
  (forall items,
     filtered <> [] ->
     Forall2 (fun e item => Summarizer.summary_of w len e = Some item)
       filtered items ->
     sat (send_email w items) env P Q) ->
  sat (pipeline w url preset) env P Q.
Proof.
  intros filtered len Hfeed Hprint Hloop Hmail. unfold pipeline.
  apply sat_bind with (Q := fun f env' => f = filtered /\ env' = env).
  { split; rewrite read_rss_feed_unfold; cbv zeta; cbn [fst snd].
    - constructor; [assumption |]. rewrite filter_loop_silent. constructor.
    - intros f env' H.
      destruct (for_each _ _ _ _) as [t r] eqn:Hr. cbn [snd] in H. subst r.
      now apply filter_loop_returns in Hr. }
  intros ? ? [-> ->].
  apply sat_bind with (Q := fun n env' => n = len /\ env' = env).
  { destruct (get_summary_length_budget preset env) as (t & Ht & Hcases).
    split; rewrite Ht; cbn [fst snd].
    - destruct Hcases as [-> | ->]; repeat constructor; assumption.
    - now intros ? ? [= <- <-]. }
  intros ? ? [-> ->].
  apply sat_bind with
    (Q := fun acc env' =>
            env' = env
            /\ match acc with
               | Some items =>
                   filtered <> []
                   /\ Forall2 (fun e item =>
                                 Summarizer.summary_of w len e = Some item)
                        filtered items
               | None => True
               end).
  { split.
    - apply loop_trace. assumption.
    - intros acc env' H.
      destruct (for_each _ _ _ _) as [t r] eqn:Hr. cbn [snd] in H. subst r.
      apply loop_returns in Hr as [-> (items & Hitems & ->)].
      split; [reflexivity |]. destruct filtered; [exact I |].
      split; [discriminate | assumption]. }
  intros [items |] ? [-> H].
  - destruct H. now apply Hmail.
  - apply sat_raise.
Qed.

(** When the filter returns and both collaborators answer for every kept
    entry, [pipeline] reaches the mailer with the summaries of the kept
    entries; before that it touches no mail transport. *)
Lemma pipeline_answers (w : World) (url preset : string) env
    (items : list ArticleSummary) :
  let filtered := List.filter (Selector.qualifies w) (feed_entries w url) in
  (forall e, In e (feed_entries w url) ->
             Selector.published_yesterday w e = true ->
             Selector.first_term e <> None) ->
  filtered <> [] ->
  Forall2 (fun e item =>
             Summarizer.summary_of w (Config.budget preset) e = Some item)
    filtered items ->
  exists t,
    pipeline w url preset env
    = ((t ++ fst (send_email w items env))%list, snd (send_email w items env))
    /\ Forall (fun ev => is_smtp ev = false) t.
Proof.
  intros filtered Htags Hne Hitems. unfold pipeline.
  assert (Hread : read_rss_feed w url env
                  = ([FeedParse url], inr (filtered, env))).
  { rewrite read_rss_feed_unfold, filter_loop_tagged; [reflexivity |].
    now apply List.Forall_forall. }
  destruct (get_summary_length_budget preset env) as (tl & Hlen & Htl).
  pose proof (loop_answers w (Config.budget preset) filtered items None env
                Hitems) as Hloop.
  rewrite (bind_returns _ _ _ _ _ _ Hread).
  rewrite (bind_returns _ _ _ _ _ _ Hlen).
  rewrite (bind_returns _ _ _ _ _ _ Hloop).
  destruct filtered as [| e0 rest]; [now destruct Hne |].
  unfold Summarizer.collected; cbn [from_option id app fst snd].
  exists (FeedParse url
          :: tl ++ concat (map (Summarizer.events_of w (Config.budget preset))
                             (e0 :: rest)))%list.
  split.
  - now rewrite <- app_comm_cons, <- app_assoc.
  - constructor; [reflexivity |]. apply Forall_app. split.
    + destruct Htl as [-> | ->]; repeat constructor.
    + apply List.Forall_forall. intros ev Hev.
      apply in_concat in Hev as (evs & Hevs & Hev).
      apply in_map_iff in Hevs as (e & <- & _).
      unfold Summarizer.events_of in Hev.
      destruct (http_content w (link e)); cbn in Hev;
        intuition (subst; reflexivity).
Qed.

(** * The claims *)

(** ** The selector (C1, C9) *)

(** C1, as stated, fails: in a feed where one entry dated yesterday carries
    no tag, an entry that qualifies is not in any filtered sequence, because
    [read_rss_feed] raises and returns none. *)
Lemma selector_untagged_counterexample :
  In Examples.first (feed_entries Examples.with_bare_entry Examples.feed_url)
  /\ Selector.qualifies Examples.with_bare_entry Examples.first = true
  /\ read_rss_feed Examples.with_bare_entry Examples.feed_url ∅
     = ([FeedParse Examples.feed_url], inl (AttributeError "tags"))
  /\ ~ Selector.selects_exactly Examples.with_bare_entry Examples.feed_url.
Proof.
  assert (H : read_rss_feed Examples.with_bare_entry Examples.feed_url ∅
              = ([FeedParse Examples.feed_url], inl (AttributeError "tags")))
    by (vm_compute; reflexivity).
  split; [now left |]. split; [vm_compute; reflexivity |].
  split; [exact H |].
  intros Hsel. destruct (Hsel ∅) as (t & filtered & env' & Hrun & _).
  rewrite H in Hrun. discriminate.
Qed.

(** C1, amended: provided every entry dated yesterday in Amsterdam carries at
    least one tag, [read_rss_feed] returns, in feed order, exactly the entries
    that have a parsed time stamp whose Amsterdam date is yesterday's and whose
    first tag's term is not "Software"; an entry without a parsed time stamp
    is never kept, and the date compared is the converted one. *)
Theorem selector_keeps_qualifying (w : World) (url : string) :
  (forall e, In e (feed_entries w url) ->
             Selector.published_yesterday w e = true ->
             Selector.first_term e <> None) ->
  let filtered := List.filter (Selector.qualifies w) (feed_entries w url) in
  (forall env, read_rss_feed w url env = ([FeedParse url], inr (filtered, env)))
  /\ (forall e, In e filtered
                <-> In e (feed_entries w url)
                    /\ Selector.published_date_ams w e = Some (Selector.yesterday w)
                    /\ exists t, Selector.first_term e = Some t
                                 /\ t <> Some "Software")
  /\ (forall e, published_parsed e = None -> ~ In e filtered)
  /\ Selector.selects_exactly w url.
Proof.
  intros Htags filtered.
  assert (Hrun : forall env,
             read_rss_feed w url env = ([FeedParse url], inr (filtered, env))).
  { intros env. rewrite read_rss_feed_unfold, filter_loop_tagged.
    - reflexivity.
    - apply List.Forall_forall. exact Htags. }
  assert (Hin : forall e, In e filtered
                          <-> In e (feed_entries w url)
                              /\ Selector.qualifies w e = true).
  { intros e. apply List.filter_In. }
  split; [exact Hrun |]. split; [| split].
  - intros e. rewrite Hin, qualifies_spec. reflexivity.
  - intros e Hnone [_ Hq]%Hin. apply qualifies_spec in Hq as [Hd _].
    unfold Selector.published_date_ams in Hd. rewrite Hnone in Hd. discriminate.
  - intros env. exists [FeedParse url], filtered, env. split; [apply Hrun | apply Hin].
Qed.

(** The theorem at the feed of entries around midnight: the entry stamped
    22:30 UTC on the 29th is kept although its UTC date is not yesterday's,
    and the entry stamped 23:30 UTC on the 30th is dropped although its UTC
    date is. *)
Lemma selector_keeps_qualifying_witness :
  read_rss_feed Examples.around_midnight Examples.feed_url ∅
  = ([FeedParse Examples.feed_url],
     inr ([Examples.late_sunday; Examples.first], ∅))
  /\ Selector.yesterday Examples.around_midnight = Date 2025 6 30
  /\ Selector.published_date_utc Examples.late_sunday = Some (Date 2025 6 29)
  /\ Selector.published_date_utc Examples.late_monday = Some (Date 2025 6 30).
Proof.
  split; [| repeat split; vm_compute; reflexivity].
  refine (proj1 (selector_keeps_qualifying Examples.around_midnight
                   Examples.feed_url _) ∅).
  intros e [<- | [<- | [<- | [<- | []]]]] _; vm_compute; discriminate.
Defined.

(** C9: an entry whose Amsterdam publish date is yesterday's and which has no
    category tag makes the filter step raise (the first tag is read without a
    test), so the entry is neither kept nor dropped and [read_rss_feed]
    returns no sequence for a feed that holds it. *)
Theorem untagged_entry_raises (w : World) (e : Entry) :
  Selector.published_yesterday w e = true -> Selector.untagged e ->
  (forall acc env, exists x,
      filter_entry (amsterdam w) (Selector.yesterday w) acc e env = ([], inl x)
      /\ tag_error x)
  /\ (forall url env, In e (feed_entries w url) -> exists x,
        read_rss_feed w url env = ([FeedParse url], inl x) /\ tag_error x).
Proof.
  intros Hy Hu. split.
  - intros acc env.
    destruct (filter_loop_untagged w [e] acc env) as (x & Hx & Hx').
    { left. now split. }
    exists x. split; [| assumption].
    cbn [for_each] in Hx. unfold bind in Hx.
    destruct (filter_entry _ _ acc e env) as [t [x' | [a env']]];
      cbn in Hx; congruence.
  - intros url env Hin.
    destruct (filter_loop_untagged w (feed_entries w url) [] env)
      as (x & Hx & Hx').
    { apply List.Exists_exists. exists e. auto. }
    exists x. split; [| assumption].
    rewrite read_rss_feed_unfold, Hx. reflexivity.
Qed.

Lemma untagged_entry_raises_witness :
  (exists x,
     read_rss_feed Examples.with_bare_entry Examples.feed_url ∅
     = ([FeedParse Examples.feed_url], inl x)
     /\ tag_error x)
  /\ exists x,
       filter_entry (amsterdam Examples.scenario)
         (Selector.yesterday Examples.scenario) [] Examples.bare_list ∅
       = ([], inl x)
       /\ tag_error x.
Proof.
  split.
  - refine (proj2 (untagged_entry_raises Examples.with_bare_entry Examples.bare
                     _ _) Examples.feed_url ∅ _).
    + vm_compute; reflexivity.
    + left; reflexivity.
    + right; now left.
  - refine (proj1 (untagged_entry_raises Examples.scenario Examples.bare_list
                     _ _) [] ∅).
    + vm_compute; reflexivity.
    + right; reflexivity.
Defined.

(** ** The configuration checks (C3, C4, C8) *)

(** A name that is unset puts its group out of configuration. *)
Lemma unset_name_group (w : World) (name : string) :
  In name Config.required_names ->
  PyStr.truthy (Config.loaded w !! name) = false ->
  Config.key_configured w = false
  \/ Config.feed_configured w = false
  \/ Config.mail_configured (Config.loaded w) = false.
Proof.
  unfold Config.required_names, Config.key_configured, Config.feed_configured,
    Config.mail_configured, Config.mail_settings.
  intros Hin Hunset. cbn [In] in Hin.
  destruct Hin as [<- | [<- | [<- | Hmail]]].
  - left. unfold Config.loaded in Hunset. rewrite lookup_union in Hunset.
    destruct (os_environ w !! "OPENAI_API_KEY") as [[| c v] |];
      [reflexivity | | reflexivity].
    destruct (dotenv_file w !! "OPENAI_API_KEY"); discriminate.
  - right; left. now rewrite Hunset.
  - right; left. rewrite Hunset. apply andb_false_r.
  - right; right. cbn [forallb].
    destruct Hmail as [<- | [<- | [<- | [<- | [<- | [<- | []]]]]]];
      rewrite Hunset; cbn [andb]; rewrite ?andb_false_r; reflexivity.
Qed.

(** Without the mail settings in place no run opens a mail session. *)
Lemma unconfigured_mail_unused (w : World) :
  Config.mail_configured (Config.loaded w) = false ->
  Forall (fun ev => is_smtp ev = false) (trace_of (run w)).
Proof.
  intros Hmail. unfold trace_of.
  destruct (Config.key_configured w) eqn:Hk;
    [| rewrite run_no_key by assumption; now repeat constructor].
  destruct (Config.feed_configured w) eqn:Hf;
    [| rewrite run_no_feed by assumption; now repeat constructor].
  destruct (feed_configured_values w Hf) as (url & preset & Hu & Hp).
  rewrite (run_configured w url preset Hk Hf Hu Hp).
  apply (pipeline_sat w url preset (Config.loaded w)
           (fun ev => is_smtp ev = false) (fun _ _ => True)).
  - reflexivity.
  - reflexivity.
  - intros e _. unfold Summarizer.events_of.
    destruct (http_content w (link e)); now repeat constructor.
  - intros items _ _. split; [| trivial].
    rewrite send_email_cases, Hmail. now repeat constructor.
Qed.

(** C4: the preset is mapped by a function that answers for every string and
    leaves the environment alone: 500 for "Short", 1000 for "Medium", 1500 for
    "Long", and 1000 after a printed warning for every other string; a preset
    that is absent or empty never reaches the mapping, the run prints a
    configuration message and returns without any further event. *)
Theorem preset_mapping :
  (forall env, get_summary_length "Short" env = ([], inr (500, env)))
  /\ (forall env, get_summary_length "Medium" env = ([], inr (1000, env)))
  /\ (forall env, get_summary_length "Long" env = ([], inr (1500, env)))
  /\ (forall preset env,
        preset <> "Short" -> preset <> "Medium" -> preset <> "Long" ->
        get_summary_length preset env
        = ([Print invalid_length_message], inr (1000, env)))
  /\ (forall w env,
        PyStr.truthy ((env ∪ dotenv_file w) !! "RSS_FEED_SUMMARY_LENGTH") = false ->
        load_feeds_info w env
        = ([Print missing_feed_message],
           inr ((None, None), env ∪ dotenv_file w)))
  /\ (forall w,
        PyStr.truthy (Config.loaded w !! "RSS_FEED_SUMMARY_LENGTH") = false ->
        run w
        = if Config.key_configured w
          then ([Print missing_feed_message], inr (tt, Config.loaded w))
          else ([Print missing_key_message], inr (tt, os_environ w))).
Proof.
  repeat split; try reflexivity.
  - intros preset env. apply get_summary_length_other.
  - intros w env H. rewrite load_feeds_info_cases. cbv zeta.
    now rewrite H, andb_false_r.
  - intros w H. destruct (Config.key_configured w) eqn:Hk.
    + apply run_no_feed; [assumption |].
      unfold Config.feed_configured. now rewrite H, andb_false_r.
    + now apply run_no_key.
Qed.

Lemma preset_mapping_witness :
  get_summary_length "Tiny" ∅ = ([Print invalid_length_message], inr (1000, ∅))
  /\ run Examples.no_preset
     = ([Print missing_feed_message],
        inr (tt, Config.loaded Examples.no_preset)).
Proof.
  destruct preset_mapping as (_ & _ & _ & Hother & _ & Hrun). split.
  - apply Hother; discriminate.
  - rewrite (Hrun Examples.no_preset) by (vm_compute; reflexivity).
    reflexivity.
Defined.

(** C3, as stated, fails: with only SMTP_SERVER absent the run fetches the
    feed, fetches the article and calls the model before it prints the mail
    message. *)
Lemma mail_settings_checked_late :
  Config.loaded Examples.no_server !! "SMTP_SERVER" = None
  /\ trace_of (run Examples.no_server)
     = [ FeedParse Examples.feed_url;
         HttpGet "https://example.org/one" 10;
         ChatCreate (summary_request 500 "<p>https://example.org/one</p>");
         Print missing_mail_message ]
  /\ ~ Config.checked_up_front Examples.no_server.
Proof.
  assert (Ht : trace_of (run Examples.no_server)
               = [ FeedParse Examples.feed_url;
                   HttpGet "https://example.org/one" 10;
                   ChatCreate (summary_request 500 "<p>https://example.org/one</p>");
                   Print missing_mail_message ])
    by (vm_compute; reflexivity).
  split; [vm_compute; reflexivity |]. split; [exact Ht |].
  intros H. destruct (H "SMTP_SERVER") as (_ & Hnet & _).
  - unfold Config.required_names. cbn [In]. tauto.
  - vm_compute; reflexivity.
  - rewrite Ht in Hnet. inversion Hnet as [| ? ? Hfeed _]. discriminate Hfeed.
Qed.

(** C3, amended: when the API key is unset in the process environment the run
    prints the key message and returns with no other event; when the key is
    set and the feed address or the preset is unset once the [.env] file is
    loaded, the run prints the feed message and returns with no other event;
    when a mail setting is unset, the mailer prints the mail message and
    returns, and no run opens a mail session, but the feed fetch, the article
    fetches and the model calls come before that check.  Every required name
    that is unset falls under one of the three cases. *)
Theorem configuration_checks :
  (forall w, Config.key_configured w = false ->
     run w = ([Print missing_key_message], inr (tt, os_environ w)))
  /\ (forall w, Config.key_configured w = true ->
        Config.feed_configured w = false ->
        run w = ([Print missing_feed_message], inr (tt, Config.loaded w)))
  /\ (forall w items env, Config.mail_configured env = false ->
        send_email w items env = ([Print missing_mail_message], inr (tt, env)))
  /\ (forall w, Config.mail_configured (Config.loaded w) = false ->
        Forall (fun ev => is_smtp ev = false) (trace_of (run w)))
  /\ (forall w name, In name Config.required_names ->
        PyStr.truthy (Config.loaded w !! name) = false ->
        Config.key_configured w = false
        \/ Config.feed_configured w = false
        \/ Config.mail_configured (Config.loaded w) = false).
Proof.
  split; [exact run_no_key |]. split; [exact run_no_feed |].
  split; [| split; [exact unconfigured_mail_unused | exact unset_name_group]].
  intros w items env H. now rewrite send_email_cases, H.
Qed.

Lemma configuration_checks_witness :
  run Examples.no_key
  = ([Print missing_key_message], inr (tt, os_environ Examples.no_key))
  /\ run Examples.no_preset
     = ([Print missing_feed_message], inr (tt, Config.loaded Examples.no_preset))
  /\ Forall (fun ev => is_smtp ev = false) (trace_of (run Examples.no_server)).
Proof.
  destruct configuration_checks as (Hkey & Hfeed & _ & Hmail & _).
  split; [| split].
  - apply Hkey. vm_compute; reflexivity.
  - apply Hfeed; vm_compute; reflexivity.
  - apply Hmail. vm_compute; reflexivity.
Defined.

(** C8, as stated, fails: with the mail settings incomplete and the article
    unreachable, the run prints no mail message and ends with the exception
    of the fetch. *)
Lemma missing_mail_not_reported :
  Config.mail_configured (Config.loaded Examples.no_server_offline) = false
  /\ run Examples.no_server_offline
     = ([FeedParse Examples.feed_url; HttpGet "https://example.org/one" 10],
        inl RequestException)
  /\ ~ Config.reports_missing_group Examples.no_server_offline.
Proof.
  assert (Hr : run Examples.no_server_offline
               = ([FeedParse Examples.feed_url;
                   HttpGet "https://example.org/one" 10],
                  inl RequestException))
    by (vm_compute; reflexivity).
  split; [vm_compute; reflexivity |]. split; [exact Hr |].
  intros (_ & _ & H). destruct H as [_ Hout]; try (vm_compute; reflexivity).
  unfold outcome_of in Hout. rewrite Hr in Hout. discriminate Hout.
Qed.

(** C8, amended: a missing API key and a missing feed address or preset each
    make the run print the message of that group and return; missing mail
    settings make the mailer print the mail message and return, which the run
    reaches when the filter returned at least one entry and the article fetch
    and the model call answered for each; the three messages differ from one
    another. *)
Theorem missing_group_messages :
  (forall w, Config.key_configured w = false ->
     trace_of (run w) = [Print missing_key_message]
     /\ outcome_of (run w) = Returned)
  /\ (forall w, Config.key_configured w = true ->
        Config.feed_configured w = false ->
        trace_of (run w) = [Print missing_feed_message]
        /\ outcome_of (run w) = Returned)
  /\ (forall w items env, Config.mail_configured env = false ->
        send_email w items env = ([Print missing_mail_message], inr (tt, env)))
  /\ (forall w url preset items,
        Config.key_configured w = true -> Config.feed_configured w = true ->
        Config.loaded w !! "RSS_FEED_URL" = Some url ->
        Config.loaded w !! "RSS_FEED_SUMMARY_LENGTH" = Some preset ->
        Config.mail_configured (Config.loaded w) = false ->
        (forall e, In e (feed_entries w url) ->
                   Selector.published_yesterday w e = true ->
                   Selector.first_term e <> None) ->
        List.filter (Selector.qualifies w) (feed_entries w url) <> [] ->
        Forall2 (fun e item =>
                   Summarizer.summary_of w (Config.budget preset) e = Some item)
          (List.filter (Selector.qualifies w) (feed_entries w url)) items ->
        exists t,
          trace_of (run w) = (t ++ [Print missing_mail_message])%list
          /\ outcome_of (run w) = Returned)
  /\ missing_key_message <> missing_feed_message
  /\ missing_key_message <> missing_mail_message
  /\ missing_feed_message <> missing_mail_message.
Proof.
  split; [| split; [| split; [| split]]].
  - intros w H. unfold trace_of, outcome_of. now rewrite run_no_key.
  - intros w Hk Hf. unfold trace_of, outcome_of. now rewrite run_no_feed.
  - intros w items env H. now rewrite send_email_cases, H.
  - intros w url preset items Hk Hf Hu Hp Hm Htags Hne Hitems.
    rewrite (run_configured w url preset Hk Hf Hu Hp).
    destruct (pipeline_answers w url preset (Config.loaded w) items
                Htags Hne Hitems) as (t & -> & _).
    rewrite send_email_cases, Hm. exists t. split; reflexivity.
  - repeat split; discriminate.
Qed.

Lemma missing_group_messages_witness :
  (trace_of (run Examples.no_key) = [Print missing_key_message]
   /\ outcome_of (run Examples.no_key) = Returned)
  /\ (trace_of (run Examples.no_preset) = [Print missing_feed_message]
      /\ outcome_of (run Examples.no_preset) = Returned)
  /\ exists t,
       trace_of (run Examples.no_server) = (t ++ [Print missing_mail_message])%list
       /\ outcome_of (run Examples.no_server) = Returned.
Proof.
  destruct missing_group_messages as (Hkey & Hfeed & _ & Hmail & _).
  split; [| split].
  - apply Hkey. vm_compute; reflexivity.
  - apply Hfeed; vm_compute; reflexivity.
  - apply (Hmail Examples.no_server Examples.feed_url "Short"
             [ {| item_title := "Article one"; item_published := "stamp one";
                  item_link := "https://example.org/one";
                  item_summary := "A summary." |} ]).
    + vm_compute; reflexivity.
    + vm_compute; reflexivity.
    + vm_compute; reflexivity.
    + vm_compute; reflexivity.
    + vm_compute; reflexivity.
    + intros e [<- | []] _. vm_compute; discriminate.
    + vm_compute; discriminate.
    + vm_compute. repeat constructor.
Defined.

(** ** The digest (C2, C5, C10) *)

(** The mailer itself takes an empty list: it sends a message whose body has
    no block. *)
Lemma send_email_empty (w : World) env (p : Z) :
  Config.mail_configured env = true -> Mailer.port env = Some p ->
  Mailer.transport_ok w env p (Mailer.digest env []) = true ->
  send_email w [] env
  = (MessageBuilt (Mailer.digest env [])
     :: Mailer.session env p (Mailer.digest env []), inr (tt, env))
  /\ msg_content (Mailer.digest env []) = "".
Proof.
  intros Hm Hp Hok. split; [| reflexivity].
  now rewrite send_email_cases, Hm, Hp, smtp_session_cases, Hok.
Qed.

(** C2 on the code: when the filter returns no entry, the loop of [main]
    never binds [complete_summary] and the call of the mailer raises
    [UnboundLocalError]; no message is built and no mail session is opened,
    whatever the mail settings. *)
Theorem empty_digest_unbound (w : World) (url preset : string) :
  Config.key_configured w = true -> Config.feed_configured w = true ->
  Config.loaded w !! "RSS_FEED_URL" = Some url ->
  Config.loaded w !! "RSS_FEED_SUMMARY_LENGTH" = Some preset ->
  read_rss_feed w url (Config.loaded w)
  = ([FeedParse url], inr ([], Config.loaded w)) ->
  outcome_of (run w) = Raised (UnboundLocalError "complete_summary")
  /\ Forall (fun ev => ev = FeedParse url \/ ev = Print invalid_length_message)
       (trace_of (run w)).
Proof.
  intros Hk Hf Hu Hp Hread.
  rewrite (run_configured w url preset Hk Hf Hu Hp). unfold pipeline.
  destruct (get_summary_length_budget preset (Config.loaded w))
    as (tl & Hlen & Htl).
  rewrite (bind_returns _ _ _ _ _ _ Hread), (bind_returns _ _ _ _ _ _ Hlen).
  cbn [for_each]. rewrite (bind_pure _ _ _ None) by reflexivity.
  unfold outcome_of, trace_of, raise; cbn [fst snd].
  split; [reflexivity |].
  destruct Htl as [-> | ->]; cbn [app];
    repeat (apply List.Forall_cons;
            [(left; reflexivity) || (right; reflexivity) |]);
    apply List.Forall_nil.
Qed.

Lemma empty_digest_unbound_witness :
  outcome_of (run Examples.empty_feed)
  = Raised (UnboundLocalError "complete_summary")
  /\ Forall (fun ev => ev = FeedParse Examples.feed_url
                       \/ ev = Print invalid_length_message)
       (trace_of (run Examples.empty_feed)).
Proof.
  apply (empty_digest_unbound Examples.empty_feed Examples.feed_url "Short");
    vm_compute; reflexivity.
Defined.

(** When at least one entry is kept and every collaborator answers, the
    message sent holds the blocks of the kept entries, one block an entry, in
    the order of the entries. *)
Lemma digest_round_trip (w : World) (url preset : string)
    (items : list ArticleSummary) (p : Z) :
  let filtered := List.filter (Selector.qualifies w) (feed_entries w url) in
  let msg := Mailer.digest (Config.loaded w) items in
  Config.key_configured w = true -> Config.feed_configured w = true ->
  Config.loaded w !! "RSS_FEED_URL" = Some url ->
  Config.loaded w !! "RSS_FEED_SUMMARY_LENGTH" = Some preset ->
  (forall e, In e (feed_entries w url) ->
             Selector.published_yesterday w e = true ->
             Selector.first_term e <> None) ->
  filtered <> [] ->
  Forall2 (fun e item =>
             Summarizer.summary_of w (Config.budget preset) e = Some item)
    filtered items ->
  Config.mail_configured (Config.loaded w) = true ->
  Mailer.port (Config.loaded w) = Some p ->
  Mailer.transport_ok w (Config.loaded w) p msg = true ->
  (exists t,
     trace_of (run w)
     = (t ++ MessageBuilt msg :: Mailer.session (Config.loaded w) p msg)%list
     /\ Forall (fun ev => is_smtp ev = false) t)
  /\ outcome_of (run w) = Returned
  /\ msg_content msg = Mailer.blocks items
  /\ length items = length filtered
  /\ Forall2 (fun e item => Summarizer.made_from item e) filtered items.
Proof.
  intros filtered msg Hk Hf Hu Hp Htags Hne Hitems Hm Hport Hok.
  rewrite (run_configured w url preset Hk Hf Hu Hp).
  destruct (pipeline_answers w url preset (Config.loaded w) items
              Htags Hne Hitems) as (t & -> & Ht).
  rewrite send_email_cases, Hm, Hport, smtp_session_cases. cbv zeta.
  fold msg. rewrite Hok. unfold trace_of, outcome_of; cbn [fst snd].
  split; [eauto |]. split; [reflexivity |].
  split; [apply digest_body_blocks |].
  split; [symmetry; eapply Forall2_length; eassumption |].
  eapply Forall2_impl; [eassumption |].
  intros e item. unfold Summarizer.summary_of, Summarizer.made_from.
  destruct (http_content w (link e)) as [c |]; [| discriminate].
  cbn [mbind option_bind].
  destruct (chat_answer w _) as [a |]; [| discriminate].
  now intros [= <-].
Qed.

(** C5 on the code, at the empty sequence: the run stops with
    [UnboundLocalError] after the feed fetch and sends no document, while the
    mailer called on the empty list would have sent one with no block. *)
Theorem round_trip_empty_sequence :
  run Examples.empty_feed
  = ([FeedParse Examples.feed_url],
     inl (UnboundLocalError "complete_summary"))
  /\ exists msg,
       send_email Examples.empty_feed [] (Config.loaded Examples.empty_feed)
       = ([MessageBuilt msg; SmtpConnect "smtp.example.org" 465;
           SmtpLogin "digest" "secret"; SmtpSend msg],
          inr (tt, Config.loaded Examples.empty_feed))
       /\ msg_content msg = "".
Proof.
  split; [vm_compute; reflexivity |].
  exists (Mailer.digest (Config.loaded Examples.empty_feed) []).
  split; [| reflexivity].
  destruct (send_email_empty Examples.empty_feed
              (Config.loaded Examples.empty_feed) 465) as [-> _];
    vm_compute; reflexivity.
Qed.

(** The round trip on the three entries tagged Tech, Software, Tech: two
    blocks, for the first and the third entry, in that order. *)
Example digest_round_trip_scenario :
  exists t msg,
    trace_of (run Examples.scenario)
    = (t ++ [MessageBuilt msg; SmtpConnect "smtp.example.org" 465;
             SmtpLogin "digest" "secret"; SmtpSend msg])%list
    /\ outcome_of (run Examples.scenario) = Returned
    /\ msg_content msg
       = block {| item_title := "Article one"; item_published := "stamp one";
                  item_link := "https://example.org/one";
                  item_summary := "A summary." |}
         +:+ block {| item_title := "Article three";
                      item_published := "stamp three";
                      item_link := "https://example.org/three";
                      item_summary := "A summary." |}.
Proof.
  set (items := [ {| item_title := "Article one"; item_published := "stamp one";
                     item_link := "https://example.org/one";
                     item_summary := "A summary." |};
                  {| item_title := "Article three";
                     item_published := "stamp three";
                     item_link := "https://example.org/three";
                     item_summary := "A summary." |} ]).
  destruct (digest_round_trip Examples.scenario Examples.feed_url "Short"
              items 465) as ((t & Ht & _) & Hout & Hbody & _).
  - vm_compute; reflexivity.
  - vm_compute; reflexivity.
  - vm_compute; reflexivity.
  - vm_compute; reflexivity.
  - intros e [<- | [<- | [<- | []]]] _; vm_compute; discriminate.
  - vm_compute; discriminate.
  - vm_compute. repeat constructor.
  - vm_compute; reflexivity.
  - vm_compute; reflexivity.
  - vm_compute; reflexivity.
  - exists t, (Mailer.digest (Config.loaded Examples.scenario) items).
    split; [exact Ht |]. split; [exact Hout |].
    rewrite Hbody. vm_compute. reflexivity.
Qed.

(** The mailer prints, builds its message and talks to the transport;
    nothing else. *)
Lemma send_email_trace (w : World) (items : list ArticleSummary) env :
  Forall (fun ev => is_mailer ev = true) (fst (send_email w items env)).
Proof.
  rewrite send_email_cases.
  destruct (Config.mail_configured env); [| now repeat constructor].
  destruct (Mailer.port env) as [p |]; [| now repeat constructor].
  rewrite smtp_session_cases. cbv zeta.
  destruct (Mailer.transport_ok w env p _); cbn [fst].
  - now repeat constructor.
  - constructor; [reflexivity |].
    destruct (negb (smtp_accepts w _ p));
      [| destruct (negb (smtp_authenticates w _ _))];
      now repeat constructor.
Qed.

(** A property of events that holds of every event before the mailer and of
    the events of the mailer holds of every event of a run. *)
Lemma run_before_mailer (w : World) (P : event -> Prop) :
  (forall ev, is_mailer ev = false -> P ev) ->
  P (Print missing_key_message) -> P (Print missing_feed_message) ->
  P (Print invalid_length_message) ->
  (forall items, Forall P (fst (send_email w items (Config.loaded w)))) ->
  Forall P (trace_of (run w)).
Proof.
  intros Hbefore Hkey Hfeed Hlen Hmail. unfold trace_of.
  destruct (Config.key_configured w) eqn:Hk;
    [| rewrite run_no_key by assumption; now repeat constructor].
  destruct (Config.feed_configured w) eqn:Hf;
    [| rewrite run_no_feed by assumption; now repeat constructor].
  destruct (feed_configured_values w Hf) as (url & preset & Hu & Hp).
  rewrite (run_configured w url preset Hk Hf Hu Hp).
  apply (pipeline_sat w url preset (Config.loaded w) P (fun _ _ => True)).
  - now apply Hbefore.
  - assumption.
  - intros e _. unfold Summarizer.events_of.
    destruct (http_content w (link e)); repeat constructor; now apply Hbefore.
  - intros items _ _. split; [apply Hmail | trivial].
Qed.

(** The events of any run: messages, the fetch of the configured feed, the
    fetches and model calls of the kept entries, and events of the mailer. *)
Lemma run_events (w : World) (P : event -> Prop) :
  (forall ev, is_mailer ev = true -> P ev) ->
  (forall url preset e,
     Config.loaded w !! "RSS_FEED_URL" = Some url ->
     Config.loaded w !! "RSS_FEED_SUMMARY_LENGTH" = Some preset ->
     P (FeedParse url)
     /\ (In e (List.filter (Selector.qualifies w) (feed_entries w url)) ->
         Forall P (Summarizer.events_of w (Config.budget preset) e))) ->
  Forall P (trace_of (run w)).
Proof.
  intros Hmailer Hrest. unfold trace_of.
  destruct (Config.key_configured w) eqn:Hk;
    [| rewrite run_no_key by assumption; repeat constructor; now apply Hmailer].
  destruct (Config.feed_configured w) eqn:Hf;
    [| rewrite run_no_feed by assumption; repeat constructor; now apply Hmailer].
  destruct (feed_configured_values w Hf) as (url & preset & Hu & Hp).
  rewrite (run_configured w url preset Hk Hf Hu Hp).
  apply (pipeline_sat w url preset (Config.loaded w) P (fun _ _ => True)).
  - exact (proj1 (Hrest url preset
                    {| title := ""; link := ""; published := "";
                       published_parsed := None; tags := None |} Hu Hp)).
  - now apply Hmailer.
  - intros e. exact (proj2 (Hrest url preset e Hu Hp)).
  - intros items _ _. split; [| trivial].
    eapply Forall_impl; [apply send_email_trace | exact Hmailer].
Qed.

Lemma summary_of_made_from (w : World) (len : Z) (e : Entry)
    (item : ArticleSummary) :
  Summarizer.summary_of w len e = Some item -> Summarizer.made_from item e.
Proof.
  unfold Summarizer.summary_of, Summarizer.made_from.
  destruct (http_content w (link e)) as [c |]; [| discriminate].
  cbn [mbind option_bind].
  destruct (chat_answer w _) as [a |]; [| discriminate].
  now intros [= <-].
Qed.

(** C10: a port setting that is not empty passes the presence test whatever
    it holds; when it does not read as a decimal integer, [send_email] builds
    its message and then raises [ValueError] at the conversion, before any
    connection; a run with such a setting opens no mail session, does not
    return once the key and the feed are configured, and ends with that
    [ValueError] when it reaches the mailer. *)
Theorem bad_port_raises :
  (forall (env : gmap string string) (port : string),
     port <> "" -> Config.mail_configured env = true ->
     Config.mail_configured (<["SMTP_PORT" := port]> env) = true)
  /\ (forall w items env,
        Config.mail_configured env = true -> Mailer.port env = None ->
        send_email w items env
        = ([MessageBuilt (Mailer.digest env items)], inl ValueError))
  /\ (forall w,
        Config.mail_configured (Config.loaded w) = true ->
        Mailer.port (Config.loaded w) = None ->
        Forall (fun ev => is_smtp ev = false) (trace_of (run w))
        /\ (Config.key_configured w = true -> Config.feed_configured w = true ->
            exists x, outcome_of (run w) = Raised x))
  /\ (forall w url preset items,
        Config.mail_configured (Config.loaded w) = true ->
        Mailer.port (Config.loaded w) = None ->
        Config.key_configured w = true -> Config.feed_configured w = true ->
        Config.loaded w !! "RSS_FEED_URL" = Some url ->
        Config.loaded w !! "RSS_FEED_SUMMARY_LENGTH" = Some preset ->
        (forall e, In e (feed_entries w url) ->
                   Selector.published_yesterday w e = true ->
                   Selector.first_term e <> None) ->
        List.filter (Selector.qualifies w) (feed_entries w url) <> [] ->
        Forall2 (fun e item =>
                   Summarizer.summary_of w (Config.budget preset) e = Some item)
          (List.filter (Selector.qualifies w) (feed_entries w url)) items ->
        outcome_of (run w) = Raised ValueError
        /\ exists t,
             trace_of (run w)
             = (t ++ [MessageBuilt (Mailer.digest (Config.loaded w) items)])%list).
Proof.
  split; [| split; [| split]].
  - intros env port Hport.
    unfold Config.mail_configured, Config.mail_settings. cbn [forallb].
    rewrite lookup_insert_eq, !lookup_insert_ne by discriminate.
    rewrite !andb_true_iff. destruct port; [contradiction | cbn; tauto].
  - intros w items env Hm Hp. now rewrite send_email_cases, Hm, Hp.
  - intros w Hm Hp. split.
    + apply run_before_mailer; try reflexivity.
      * now intros [].
      * intros items. rewrite send_email_cases, Hm, Hp. now repeat constructor.
    + intros Hk Hf.
      destruct (feed_configured_values w Hf) as (url & preset & Hu & Hpr).
      unfold outcome_of. rewrite (run_configured w url preset Hk Hf Hu Hpr).
      assert (Hsat : sat (pipeline w url preset) (Config.loaded w)
                       (fun _ => True) (fun _ _ => False)).
      { apply pipeline_sat; trivial.
        - intros e _. apply List.Forall_forall. trivial.
        - intros items _ _. unfold sat. rewrite send_email_cases, Hm, Hp.
          split; [now repeat constructor | discriminate]. }
      destruct Hsat as [_ Hret].
      destruct (snd (pipeline w url preset (Config.loaded w))) as [x | [[] env']].
      * eauto.
      * destruct (Hret tt env' eq_refl).
  - intros w url preset items Hm Hp Hk Hf Hu Hpr Htags Hne Hitems.
    unfold outcome_of, trace_of.
    rewrite (run_configured w url preset Hk Hf Hu Hpr).
    destruct (pipeline_answers w url preset (Config.loaded w) items
                Htags Hne Hitems) as (t & -> & _).
    rewrite send_email_cases, Hm, Hp. cbn [fst snd]. eauto.
Qed.

Lemma bad_port_raises_witness :
  Config.mail_configured (Config.loaded Examples.named_port) = true
  /\ send_email Examples.named_port [] (Config.loaded Examples.named_port)
     = ([MessageBuilt (Mailer.digest (Config.loaded Examples.named_port) [])],
        inl ValueError)
  /\ Forall (fun ev => is_smtp ev = false) (trace_of (run Examples.named_port))
  /\ outcome_of (run Examples.named_port) = Raised ValueError.
Proof.
  destruct bad_port_raises as (Hcheck & Hsend & Hrun & Hend).
  split; [| split; [| split]].
  - apply (Hcheck (Config.loaded Examples.scenario) "smtps").
    + discriminate.
    + vm_compute; reflexivity.
  - apply Hsend; vm_compute; reflexivity.
  - apply Hrun; vm_compute; reflexivity.
  - apply (Hend Examples.named_port Examples.feed_url "Short"
             [ {| item_title := "Article one"; item_published := "stamp one";
                  item_link := "https://example.org/one";
                  item_summary := "A summary." |} ]).
    + vm_compute; reflexivity.
    + vm_compute; reflexivity.
    + vm_compute; reflexivity.
    + vm_compute; reflexivity.
    + vm_compute; reflexivity.
    + vm_compute; reflexivity.
    + intros e [<- | []] _. vm_compute; discriminate.
    + vm_compute; discriminate.
    + vm_compute. repeat constructor.
Defined.

(** ** The summarizer (C6, C7) *)

Lemma lstrip_split (s : string) :
  exists l, s = l +:+ PyStr.lstrip s /\ PyStr.all_space l = true.
Proof.
  induction s as [| c s (l & Hl & Hs)]; [now exists "" |].
  cbn [PyStr.lstrip]. destruct (PyStr.isspace c) eqn:Hc.
  - exists (String c l). rewrite append_cons, <- Hl. split; [reflexivity |].
    cbn [PyStr.all_space]. now rewrite Hc.
  - now exists "".
Qed.

Lemma lstrip_first (s : string) (c : ascii) :
  PyStr.first_char (PyStr.lstrip s) = Some c -> PyStr.isspace c = false.
Proof.
  induction s as [| x s IH]; [discriminate |].
  cbn [PyStr.lstrip]. destruct (PyStr.isspace x) eqn:Hx; [exact IH |].
  now intros [= <-].
Qed.

Lemma rstrip_split (s : string) :
  exists r, s = PyStr.rstrip s +:+ r /\ PyStr.all_space r = true.
Proof.
  induction s as [| c s (r & Hr & Hs)]; [now exists "" |].
  cbn [PyStr.rstrip]. destruct (PyStr.rstrip s) as [| c' s'] eqn:Hstrip.
  - destruct (PyStr.isspace c) eqn:Hc.
    + exists (String c s). split; [reflexivity |].
      cbn [PyStr.all_space]. rewrite Hc. change ("" +:+ r) with r in Hr.
      now subst r.
    + exists r. now rewrite append_cons, <- Hr.
  - exists r. now rewrite append_cons, <- Hr.
Qed.

Lemma rstrip_last (s : string) (c : ascii) :
  PyStr.last_char (PyStr.rstrip s) = Some c -> PyStr.isspace c = false.
Proof.
  induction s as [| x s IH]; [discriminate |].
  cbn [PyStr.rstrip]. destruct (PyStr.rstrip s) as [| c' s'] eqn:Hstrip.
  - destruct (PyStr.isspace x) eqn:Hx; [discriminate |]. now intros [= <-].
  - exact IH.
Qed.

Lemma rstrip_first (s : string) (c : ascii) :
  PyStr.first_char (PyStr.rstrip s) = Some c -> PyStr.first_char s = Some c.
Proof.
  destruct s as [| x s]; [discriminate |].
  cbn [PyStr.rstrip]. destruct (PyStr.rstrip s); [| trivial].
  destruct (PyStr.isspace x); [discriminate | trivial].
Qed.

(** [strip] removes white space at both ends and nothing else. *)
Lemma strip_spec (s : string) :
  exists l r,
    s = l +:+ PyStr.strip s +:+ r
    /\ PyStr.all_space l = true /\ PyStr.all_space r = true
    /\ (forall c, PyStr.first_char (PyStr.strip s) = Some c ->
                  PyStr.isspace c = false)
    /\ (forall c, PyStr.last_char (PyStr.strip s) = Some c ->
                  PyStr.isspace c = false).
Proof.
  destruct (lstrip_split s) as (l & Hl & Hls).
  destruct (rstrip_split (PyStr.lstrip s)) as (r & Hr & Hrs).
  exists l, r. unfold PyStr.strip. repeat split; try assumption.
  - now rewrite <- Hr.
  - intros c Hc. eapply lstrip_first, rstrip_first, Hc.
  - apply rstrip_last.
Qed.

Lemma Forall2_member_r {A B} (R : A -> B -> Prop) (l : list A) (k : list B)
    (y : B) :
  Forall2 R l k -> In y k -> exists x, In x l /\ R x y.
Proof.
  induction 1 as [| x y' l k Hxy _ IH]; intros Hin; [destruct Hin |].
  destruct Hin as [<- | Hin].
  - exists x. split; [now left | assumption].
  - destruct (IH Hin) as (x' & Hx' & HR). exists x'. split; [now right | assumption].
Qed.

(** C6: in every state the loop of [main] passes through, from the first pass
    to the call of the mailer, each collected summary was made from an entry
    of the feed that passed the filter; and every article a run fetches is the
    article of such an entry. *)
Theorem summaries_only_for_selected :
  (forall w url len env t filtered env' cfg,
     read_rss_feed w url env = (t, inr (filtered, env')) ->
     rtc (Summarizer.step w len) (filtered, None) cfg ->
     Forall (fun item =>
               exists e, In e (feed_entries w url)
                         /\ Selector.qualifies w e = true
                         /\ Summarizer.made_from item e)
       (Summarizer.collected (snd cfg)))
  /\ (forall w len entries env t acc env',
        for_each entries (summarize_entry w len) None env
        = (t, inr (acc, env')) ->
        rtc (Summarizer.step w len) (entries, None) ([], acc))
  /\ (forall w ev, In ev (trace_of (run w)) ->
        match ev with
        | HttpGet l _ =>
            exists url e, Config.loaded w !! "RSS_FEED_URL" = Some url
                          /\ In e (feed_entries w url)
                          /\ Selector.qualifies w e = true /\ link e = l
        | ChatCreate req =>
            exists url e c, Config.loaded w !! "RSS_FEED_URL" = Some url
                            /\ In e (feed_entries w url)
                            /\ Selector.qualifies w e = true
                            /\ http_content w (link e) = Some c
                            /\ req = summary_request (max_tokens req)
                                       (html_text w c)
        | _ => True
        end)
  /\ (forall w e, Selector.qualifies w e = true ->
        published_parsed e <> None
        /\ Selector.published_date_ams w e = Some (Selector.yesterday w)
        /\ exists t, Selector.first_term e = Some t /\ t <> Some "Software").
Proof.
  split; [| split; [| split]].
  - intros w url len env t filtered env' cfg Hread Hreach.
    rewrite read_rss_feed_unfold in Hread. cbv zeta in Hread.
    destruct (for_each _ _ _ _) as [t0 r0] eqn:Hloop. cbn [fst snd] in Hread.
    injection Hread as _ ->. apply filter_loop_returns in Hloop as [-> _].
    cbn [app] in Hreach.
    apply rtc_visited in Hreach as (done & Hsplit & Hall).
    apply List.Forall_forall. intros item Hitem.
    apply (Forall2_member_r _ _ _ _ Hall) in Hitem as (e & He & Hsum).
    exists e.
    assert (Hin : In e (List.filter (Selector.qualifies w) (feed_entries w url))).
    { rewrite Hsplit. apply in_or_app. now left. }
    apply List.filter_In in Hin as [Hfeed Hq].
    eauto using summary_of_made_from.
  - intros w len entries env t acc env'. apply loop_steps.
  - intros w ev Hev. revert ev Hev. apply List.Forall_forall.
    apply run_events.
    + now intros [].
    + intros url preset e Hu Hp. split; [exact I |].
      intros [Hfeed Hq]%List.filter_In. unfold Summarizer.events_of.
      destruct (http_content w (link e)) as [c |] eqn:Hc; repeat constructor;
        eauto 10.
  - intros w e Hq. apply qualifies_spec in Hq as [Hd Ht].
    split; [| split; assumption].
    unfold Selector.published_date_ams in Hd.
    destruct (published_parsed e); [discriminate | discriminate Hd].
Qed.

Lemma summaries_only_for_selected_witness :
  Forall (fun item =>
            exists e, In e Examples.three_entries
                      /\ Selector.qualifies Examples.scenario e = true
                      /\ Summarizer.made_from item e)
    [ {| item_title := "Article one"; item_published := "stamp one";
         item_link := "https://example.org/one";
         item_summary := "A summary." |};
      {| item_title := "Article three"; item_published := "stamp three";
         item_link := "https://example.org/three";
         item_summary := "A summary." |} ].
Proof.
  destruct summaries_only_for_selected as (Hinv & Hreach & _).
  refine (Hinv Examples.scenario Examples.feed_url 500 ∅
            [FeedParse Examples.feed_url] [Examples.first; Examples.third] ∅
            ([], Some _) _ _).
  - vm_compute; reflexivity.
  - eapply (Hreach Examples.scenario 500 [Examples.first; Examples.third] ∅).
    vm_compute; reflexivity.
Defined.

(** C7: every model call of a run asks for at most the budget of the
    configured preset (500 for Short, 1000 for Medium, 1500 for Long, as
    [get_summary_length] returns it) at temperature 0.7, and the summary a
    pass of the loop stores is the text the service returned, stripped of the
    white space at its two ends. *)
Theorem summarization_requests :
  (forall w req, In (ChatCreate req) (trace_of (run w)) ->
     temperature req = 7 # 10
     /\ exists preset,
          Config.loaded w !! "RSS_FEED_SUMMARY_LENGTH" = Some preset
          /\ max_tokens req = Config.budget preset)
  /\ (forall preset env, exists t,
        get_summary_length preset env = (t, inr (Config.budget preset, env)))
  /\ (Config.budget "Short" = 500 /\ Config.budget "Medium" = 1000
      /\ Config.budget "Long" = 1500)
  /\ (forall w len acc e env t acc' env',
        summarize_entry w len acc e env = (t, inr (acc', env')) ->
        exists c a,
          http_content w (link e) = Some c
          /\ chat_answer w (summary_request len (html_text w c)) = Some a
          /\ t = [HttpGet (link e) 10;
                  ChatCreate (summary_request len (html_text w c))]
          /\ acc' = Some (Summarizer.collected acc
                          ++ [ {| item_title := title e;
                                  item_published := published e;
                                  item_link := link e;
                                  item_summary := PyStr.strip a |} ])%list)
  /\ (forall a, exists l r,
        a = l +:+ PyStr.strip a +:+ r
        /\ PyStr.all_space l = true /\ PyStr.all_space r = true
        /\ (forall c, PyStr.first_char (PyStr.strip a) = Some c ->
                      PyStr.isspace c = false)
        /\ (forall c, PyStr.last_char (PyStr.strip a) = Some c ->
                      PyStr.isspace c = false)).
Proof.
  split; [| split; [| split; [| split]]].
  - intros w req Hreq.
    assert (H : Forall (fun ev =>
                          match ev with
                          | ChatCreate req =>
                              temperature req = 7 # 10
                              /\ exists preset,
                                   Config.loaded w !! "RSS_FEED_SUMMARY_LENGTH"
                                   = Some preset
                                   /\ max_tokens req = Config.budget preset
                          | _ => True
                          end) (trace_of (run w))).
    { apply run_events.
      - now intros [].
      - intros url preset e Hu Hp. split; [exact I |]. intros _.
        unfold Summarizer.events_of.
        destruct (http_content w (link e)); repeat constructor. eauto. }
    rewrite List.Forall_forall in H. exact (H _ Hreq).
  - intros preset env.
    destruct (get_summary_length_budget preset env) as (t & Ht & _). eauto.
  - repeat split.
  - intros w len acc e env t acc' env'. rewrite summarize_entry_cases.
    destruct (http_content w (link e)) as [c |]; [| discriminate].
    cbv zeta. destruct (chat_answer w _) as [a |] eqn:Ha; [| discriminate].
    intros [= <- <- <-]. exists c, a. repeat split. exact Ha.
  - exact strip_spec.
Qed.

Lemma summarization_requests_witness :
  (temperature (summary_request 500 "<p>https://example.org/one</p>") = 7 # 10
   /\ exists preset,
        Config.loaded Examples.scenario !! "RSS_FEED_SUMMARY_LENGTH" = Some preset
        /\ max_tokens (summary_request 500 "<p>https://example.org/one</p>")
           = Config.budget preset)
  /\ exists c a,
       http_content Examples.scenario (link Examples.first) = Some c
       /\ chat_answer Examples.scenario
            (summary_request 500 (html_text Examples.scenario c)) = Some a
       /\ [HttpGet "https://example.org/one" 10;
           ChatCreate (summary_request 500 "<p>https://example.org/one</p>")]
          = [HttpGet (link Examples.first) 10;
             ChatCreate (summary_request 500 (html_text Examples.scenario c))]
       /\ Some [ {| item_title := "Article one"; item_published := "stamp one";
                    item_link := "https://example.org/one";
                    item_summary := "A summary." |} ]
          = Some (Summarizer.collected None
                  ++ [ {| item_title := title Examples.first;
                          item_published := published Examples.first;
                          item_link := link Examples.first;
                          item_summary := PyStr.strip a |} ])%list.
Proof.
  destruct summarization_requests as (Hreq & _ & _ & Hstore & _). split.
  - apply (Hreq Examples.scenario). vm_compute. tauto.
  - apply (Hstore Examples.scenario 500 None Examples.first ∅ _ _ ∅).
    vm_compute; reflexivity.
Defined.


(** * Further properties of the script *)

(** ** Laws used below *)

Lemma bind_raises {A B} (m : M A) (k : A -> M B) env t e :
  m env = (t, inl e) -> bind m k env = (t, inl e).
Proof. intros H. unfold bind. now rewrite H. Qed.

Lemma for_each_app {A S} (l1 l2 : list A) (body : S -> A -> M S) (s : S) env :
  for_each (l1 ++ l2) body s env
  = bind (for_each l1 body s) (for_each l2 body) env.
Proof.
  revert s env. induction l1 as [| x l1 IH]; intros s env; simpl.
  - unfold bind, ret. now destruct (for_each l2 body s env).
  - unfold bind in *. destruct (body s x env) as [t [e | [s' env']]]; [reflexivity |].
    rewrite IH. destruct (for_each l1 body s' env') as [t1 [e1 | [s1 env1]]];
      [reflexivity |].
    destruct (for_each l2 body s1 env1). now rewrite app_assoc.
Qed.

Lemma get_summary_length_warning (preset : string) env :
  get_summary_length preset env
  = (Reading.warning preset, inr (Config.budget preset, env)).
Proof.
  unfold get_summary_length, Reading.warning, Config.budget.
  destruct (String.eqb_spec preset "Short") as [-> | _]; [reflexivity |].
  destruct (String.eqb_spec preset "Medium") as [-> | _]; [reflexivity |].
  destruct (String.eqb_spec preset "Long") as [-> | _]; reflexivity.
Qed.

(** ** The selector, in full *)

Lemma filter_loop_find (w : World) (feed acc : list Entry) env :
  for_each feed (filter_entry (amsterdam w) (Selector.yesterday w)) acc env
  = ([], match List.find (Reading.offending w) feed with
         | Some e => inl (Reading.tag_exception e)
         | None =>
             inr ((acc ++ List.filter (Selector.qualifies w) feed)%list, env)
         end).
Proof.
  revert acc. induction feed as [| e feed IH]; intros acc.
  - cbn. now rewrite app_nil_r.
  - cbn [for_each List.find]. unfold bind. rewrite filter_entry_cases.
    unfold Reading.offending, Reading.tag_exception.
    destruct (Selector.published_yesterday w e); cbn [andb];
      [destruct (Selector.first_term e) |]; try reflexivity;
      rewrite IH, <- app_assoc, <- filter_head;
      now destruct (List.find _ feed).
Qed.

(** X1: [read_rss_feed] fetches the feed once and then either raises the
    exception of the first entry, in feed order, that is dated yesterday in
    Amsterdam and has no first tag ([AttributeError] without a [tags]
    attribute, [IndexError] on an empty list), or, when there is no such
    entry, returns the qualifying entries in feed order and leaves the
    environment as it was. *)
Theorem read_rss_feed_find (w : World) (url : string) env :
  read_rss_feed w url env
  = ([FeedParse url],
     match List.find (Reading.offending w) (feed_entries w url) with
     | Some e => inl (Reading.tag_exception e)
     | None =>
         inr (List.filter (Selector.qualifies w) (feed_entries w url), env)
     end).
Proof. now rewrite read_rss_feed_unfold, filter_loop_find. Qed.

Lemma filter_sublist {A} (f : A -> bool) (l : list A) :
  sublist (List.filter f l) l.
Proof.
  induction l as [| x l IH]; cbn [List.filter]; [constructor |].
  destruct (f x); now constructor.
Qed.

Lemma filter_all {A} (f : A -> bool) (l : list A) :
  Forall (fun x => f x = true) l -> List.filter f l = l.
Proof.
  induction 1 as [| x l Hx _ IH]; cbn [List.filter]; [reflexivity |].
  now rewrite Hx, IH.
Qed.

Lemma find_none_all {A} (f : A -> bool) (l : list A) :
  Forall (fun x => f x = false) l -> List.find f l = None.
Proof.
  induction 1 as [| x l Hx _ IH]; cbn [List.find]; [reflexivity |].
  now rewrite Hx.
Qed.

Lemma qualifies_not_offending (w : World) (e : Entry) :
  Selector.qualifies w e = true -> Reading.offending w e = false.
Proof.
  unfold Selector.qualifies, Reading.offending.
  destruct (Selector.published_yesterday w e); [| discriminate].
  now destruct (Selector.first_term e).
Qed.

(** X2: when [read_rss_feed] returns, its result is a subsequence of the
    feed (nothing added, repeated or reordered), every entry of it satisfies
    the filter condition, and the filter loop run over the result itself
    returns it unchanged. *)
Theorem filtered_feed_stable (w : World) (url : string) env t filtered env' :
  read_rss_feed w url env = (t, inr (filtered, env')) ->
  sublist filtered (feed_entries w url)
  /\ Forall (fun e => Selector.qualifies w e = true) filtered
  /\ (length filtered <= length (feed_entries w url))%nat
  /\ for_each filtered (filter_entry (amsterdam w) (Selector.yesterday w)) [] env
     = ([], inr (filtered, env)).
Proof.
  rewrite read_rss_feed_find.
  destruct (List.find _ _); [discriminate |]. intros [= _ <- _].
  assert (Hall : Forall (fun e => Selector.qualifies w e = true)
                   (List.filter (Selector.qualifies w) (feed_entries w url))).
  { apply List.Forall_forall. intros e He. now apply List.filter_In in He. }
  split; [apply filter_sublist |]. split; [exact Hall |].
  split; [apply sublist_length, filter_sublist |].
  rewrite filter_loop_find, find_none_all, filter_all; trivial.
  eapply Forall_impl; [exact Hall |]. apply qualifies_not_offending.
Qed.

Lemma filtered_feed_stable_witness :
  sublist [Examples.first; Examples.third] Examples.three_entries
  /\ Forall (fun e => Selector.qualifies Examples.scenario e = true)
       [Examples.first; Examples.third]
  /\ (length [Examples.first; Examples.third]
      <= length (feed_entries Examples.scenario Examples.feed_url))%nat
  /\ for_each [Examples.first; Examples.third]
       (filter_entry (amsterdam Examples.scenario)
          (Selector.yesterday Examples.scenario)) [] ∅
     = ([], inr ([Examples.first; Examples.third], ∅)).
Proof.
  apply (filtered_feed_stable Examples.scenario Examples.feed_url ∅
           [FeedParse Examples.feed_url] [Examples.first; Examples.third] ∅).
  vm_compute; reflexivity.
Defined.

(** ** [load_feeds_info], in full *)

(** X3: [load_feeds_info] leaves in [os.environ] the process environment
    completed by the [.env] file, where a name the process environment holds
    keeps its value; it returns either both values, each non-empty, without
    printing, or [(None, None)] after the feed message, never one value
    alone; in particular a feed address set to the empty string in the
    process environment hides the address of the [.env] file and is reported
    as missing. *)
Theorem load_feeds_info_result (w : World) (env : gmap string string) :
  let env' := env ∪ dotenv_file w in
  (forall name v, env !! name = Some v -> env' !! name = Some v)
  /\ (forall name, env !! name = None -> env' !! name = dotenv_file w !! name)
  /\ ((exists url preset,
         load_feeds_info w env = ([], inr ((Some url, Some preset), env'))
         /\ url <> "" /\ preset <> ""
         /\ env' !! "RSS_FEED_URL" = Some url
         /\ env' !! "RSS_FEED_SUMMARY_LENGTH" = Some preset)
      \/ (load_feeds_info w env
          = ([Print missing_feed_message], inr ((None, None), env'))
          /\ (PyStr.truthy (env' !! "RSS_FEED_URL") = false
              \/ PyStr.truthy (env' !! "RSS_FEED_SUMMARY_LENGTH") = false)))
  /\ (env !! "RSS_FEED_URL" = Some "" ->
      load_feeds_info w env
      = ([Print missing_feed_message], inr ((None, None), env'))).
Proof.
  intros env'.
  assert (Hl : forall name v, env !! name = Some v -> env' !! name = Some v).
  { intros name v H. now apply lookup_union_Some_l. }
  split; [exact Hl |]. split.
  { intros name H. unfold env'. now rewrite lookup_union_r. }
  rewrite load_feeds_info_cases. cbv zeta. fold env'. split.
  - destruct (env' !! "RSS_FEED_URL") as [[| c url] |];
      cbn [PyStr.truthy andb]; try (right; split; [reflexivity | now left]).
    destruct (env' !! "RSS_FEED_SUMMARY_LENGTH") as [[| c' preset] |];
      cbn [PyStr.truthy]; try (right; split; [reflexivity | now right]).
    left. exists (String c url), (String c' preset).
    repeat split; discriminate.
  - intros H. now rewrite (Hl _ _ H).
Qed.

Lemma load_feeds_info_result_witness :
  load_feeds_info Cases.shadowed (os_environ Cases.shadowed)
  = ([Print missing_feed_message],
     inr ((None, None), Config.loaded Cases.shadowed))
  /\ dotenv_file Cases.shadowed !! "RSS_FEED_URL"
     = Some "https://example.org/feed.xml"
  /\ Config.loaded Cases.shadowed !! "RSS_FEED_SUMMARY_LENGTH" = Some "Long".
Proof.
  destruct (load_feeds_info_result Cases.shadowed (os_environ Cases.shadowed))
    as (_ & Hfile & _ & Hempty).
  split; [| split].
  - apply Hempty. vm_compute; reflexivity.
  - vm_compute; reflexivity.
  - unfold Config.loaded. rewrite Hfile; vm_compute; reflexivity.
Defined.

(** ** The mailer, in full *)

(** Every way [send_email] can go. *)
Lemma send_email_table (w : World) (items : list ArticleSummary) env :
  let d := Mailer.digest env items in
  let host := the (env !! "SMTP_SERVER") in
  let user := the (env !! "SMTP_USER") in
  let password := the (env !! "SMTP_PASSWORD") in
  send_email w items env
  = if negb (Config.mail_configured env)
    then ([Print missing_mail_message], inr (tt, env))
    else match Mailer.port env with
         | None => ([MessageBuilt d], inl ValueError)
         | Some p =>
             if negb (smtp_accepts w host p)
             then ([MessageBuilt d; SmtpConnect host p], inl SMTPException)
             else if negb (smtp_authenticates w user password)
             then ([MessageBuilt d; SmtpConnect host p; SmtpLogin user password],
                   inl SMTPException)
             else if negb (smtp_delivers w d)
             then ([MessageBuilt d; SmtpConnect host p; SmtpLogin user password;
                    SmtpSend d], inl SMTPException)
             else ([MessageBuilt d; SmtpConnect host p; SmtpLogin user password;
                    SmtpSend d], inr (tt, env))
         end.
Proof.
  cbv zeta. rewrite send_email_cases.
  destruct (Config.mail_configured env); cbn [negb]; [| reflexivity].
  destruct (Mailer.port env) as [p |]; [| reflexivity].
  rewrite smtp_session_cases. unfold Mailer.transport_ok, Mailer.session.
  destruct (smtp_accepts w _ p); cbn [negb andb]; [| reflexivity].
  destruct (smtp_authenticates w _ _); cbn [negb andb]; [| reflexivity].
  destruct (smtp_delivers w _); reflexivity.
Qed.

(** X7: in [send_email] the login is sent only over a connection the server
    accepted, and the message only after a login that went through, on the
    port the setting reads as; the message is the digest of the summaries
    given; the call returns only after the mail message was printed or the
    message was delivered, then with the environment as it was, and raises
    nothing but [ValueError] and the transport's exception. *)
Theorem mail_session_order (w : World) (items : list ArticleSummary) env :
  let r := send_email w items env in
  (forall u pw, In (SmtpLogin u pw) (fst r) ->
     u = the (env !! "SMTP_USER") /\ pw = the (env !! "SMTP_PASSWORD")
     /\ exists p, Mailer.port env = Some p
                  /\ smtp_accepts w (the (env !! "SMTP_SERVER")) p = true)
  /\ (forall msg, In (SmtpSend msg) (fst r) ->
        msg = Mailer.digest env items
        /\ In (SmtpLogin (the (env !! "SMTP_USER")) (the (env !! "SMTP_PASSWORD")))
             (fst r)
        /\ smtp_authenticates w (the (env !! "SMTP_USER"))
             (the (env !! "SMTP_PASSWORD")) = true)
  /\ (forall a env', snd r = inr (a, env') ->
        env' = env
        /\ (fst r = [Print missing_mail_message]
            \/ (In (SmtpSend (Mailer.digest env items)) (fst r)
                /\ smtp_delivers w (Mailer.digest env items) = true)))
  /\ (forall x, snd r = inl x -> x = ValueError \/ x = SMTPException).
Proof.
  cbv zeta. rewrite send_email_table. cbv zeta.
  destruct (Config.mail_configured env); cbn [negb];
    [destruct (Mailer.port env) as [p |];
     [destruct (smtp_accepts w _ p) eqn:Ha; cbn [negb];
      [destruct (smtp_authenticates w _ _) eqn:Hl; cbn [negb];
       [destruct (smtp_delivers w _) eqn:Hd; cbn [negb] | ] | ] | ] | ];
    cbn [fst snd In]; repeat split; intros;
    repeat match goal with
           | H : _ \/ _ |- _ => destruct H
           | H : False |- _ => destruct H
           end;
    simplify_eq; cbn [In]; eauto 10.
Qed.

Lemma mail_session_order_witness :
  "digest" = the (Config.loaded Examples.scenario !! "SMTP_USER")
  /\ "secret" = the (Config.loaded Examples.scenario !! "SMTP_PASSWORD")
  /\ exists p,
       Mailer.port (Config.loaded Examples.scenario) = Some p
       /\ smtp_accepts Examples.scenario
            (the (Config.loaded Examples.scenario !! "SMTP_SERVER")) p = true.
Proof.
  apply (proj1 (mail_session_order Examples.scenario [Cases.item_one]
                  (Config.loaded Examples.scenario))).
  vm_compute. tauto.
Defined.

(** ** The shape of a run *)

Lemma warning_events (preset : string) :
  Forall (fun ev => Reading.is_pipeline_event ev = true) (Reading.warning preset).
Proof.
  unfold Reading.warning. destruct (_ || _); now repeat constructor.
Qed.

Lemma loop_pipeline_events (w : World) (len : Z) (entries : list Entry) acc env :
  Forall (fun ev => Reading.is_pipeline_event ev = true)
    (fst (for_each entries (summarize_entry w len) acc env)).
Proof.
  apply loop_trace. intros e _. unfold Summarizer.events_of.
  destruct (http_content w (link e)); now repeat constructor.
Qed.

(** [pipeline] either raises before the mailer or hands the summaries of all
    kept entries, of which there is at least one, to the mailer. *)
Lemma pipeline_shape (w : World) (url preset : string) env :
  let filtered := List.filter (Selector.qualifies w) (feed_entries w url) in
  let len := Config.budget preset in
  exists t,
    Forall (fun ev => Reading.is_pipeline_event ev = true) t
    /\ ((exists x, pipeline w url preset env = (t, inl x))
        \/ (exists items,
              filtered <> []
              /\ Forall2 (fun e item => Summarizer.summary_of w len e = Some item)
                   filtered items
              /\ t = (FeedParse url :: Reading.warning preset
                        ++ Reading.loop_events w len filtered)%list
              /\ pipeline w url preset env
                 = ((t ++ fst (send_email w items env))%list,
                    snd (send_email w items env)))).
Proof.
  intros filtered len. unfold pipeline.
  pose proof (read_rss_feed_find w url env) as Hread.
  destruct (List.find _ _) as [e |].
  { exists [FeedParse url]. split; [now repeat constructor |]. left.
    eexists. apply bind_raises. exact Hread. }
  fold filtered in Hread.
  rewrite (bind_returns _ _ _ _ _ _ Hread).
  rewrite (bind_returns _ _ _ _ _ _ (get_summary_length_warning preset env)).
  fold len.
  pose proof (loop_pipeline_events w len filtered None env) as Hevents.
  destruct (for_each filtered (summarize_entry w len) None env)
    as [tl [x | [acc env']]] eqn:Hloop; cbn [fst] in Hevents.
  - exists (FeedParse url :: Reading.warning preset ++ tl)%list. split.
    + constructor; [reflexivity |]. apply Forall_app.
      split; [apply warning_events | assumption].
    + left. exists x. rewrite (bind_raises _ _ _ _ _ Hloop). reflexivity.
  - pose proof Hloop as Hret.
    apply loop_returns in Hret as [-> (items & Hitems & ->)].
    rewrite (bind_returns _ _ _ _ _ _ Hloop).
    assert (Htl : tl = Reading.loop_events w len filtered).
    { rewrite (loop_answers w len filtered items None env Hitems) in Hloop.
      now injection Hloop as <-. }
    subst tl.
    exists (FeedParse url :: Reading.warning preset
              ++ Reading.loop_events w len filtered)%list.
    split.
    { constructor; [reflexivity |]. apply Forall_app.
      split; [apply warning_events | assumption]. }
    destruct filtered as [| e0 rest] eqn:Hf.
    + left. eexists. cbn [fst snd raise]. unfold raise. cbn [fst snd].
      now rewrite !app_nil_r.
    + right. exists items. split; [discriminate |]. split; [assumption |].
      split; [reflexivity |].
      unfold Summarizer.collected; cbn [from_option id app fst snd].
      now rewrite <- app_assoc.
Qed.

(** The three ways a run can go. *)
Lemma run_shape (w : World) :
  run w = ([Print missing_key_message], inr (tt, os_environ w))
  \/ run w = ([Print missing_feed_message], inr (tt, Config.loaded w))
  \/ exists url preset,
       Config.key_configured w = true /\ Config.feed_configured w = true
       /\ Config.loaded w !! "RSS_FEED_URL" = Some url
       /\ Config.loaded w !! "RSS_FEED_SUMMARY_LENGTH" = Some preset
       /\ run w = pipeline w url preset (Config.loaded w).
Proof.
  destruct (Config.key_configured w) eqn:Hk; [| left; now apply run_no_key].
  destruct (Config.feed_configured w) eqn:Hf;
    [| right; left; now apply run_no_feed].
  destruct (feed_configured_values w Hf) as (url & preset & Hu & Hp).
  right; right. exists url, preset. repeat split; try assumption.
  now apply run_configured.
Qed.

Lemma pipeline_event_not_mailer (ev : event) :
  Reading.is_pipeline_event ev = true ->
  Reading.is_send ev = false /\ is_smtp ev = false
  /\ ev <> Print missing_mail_message.
Proof.
  destruct ev;
    cbn [Reading.is_pipeline_event Reading.is_send is_smtp];
    intros H; try discriminate H; repeat split; try discriminate.
  intros [= ->]. vm_compute in H. discriminate H.
Qed.

(** Where [send_email] sends, its events are the whole session. *)
Lemma send_email_sends (w : World) (items : list ArticleSummary) env msg :
  In (SmtpSend msg) (fst (send_email w items env)) ->
  msg = Mailer.digest env items
  /\ exists p,
       fst (send_email w items env)
       = [MessageBuilt msg; SmtpConnect (the (env !! "SMTP_SERVER")) p;
          SmtpLogin (the (env !! "SMTP_USER")) (the (env !! "SMTP_PASSWORD"));
          SmtpSend msg].
Proof.
  rewrite send_email_table. cbv zeta.
  destruct (Config.mail_configured env); cbn [negb];
    [destruct (Mailer.port env) as [p |];
     [destruct (smtp_accepts w _ p); cbn [negb];
      [destruct (smtp_authenticates w _ _); cbn [negb];
       [destruct (smtp_delivers w _); cbn [negb] | ] | ] | ] | ];
    cbn [fst snd In]; intros;
    repeat match goal with
           | H : _ \/ _ |- _ => destruct H
           | H : False |- _ => destruct H
           end;
    simplify_eq; eauto.
Qed.

(** X6: whenever a run hands a message to the mail transport, that message
    is the digest of the summaries of all the entries the filter kept, of
    which there is at least one, in feed order, with the fixed subject and
    the configured sender and recipient; the hand-over is the last event of
    the run and the only one of its kind. *)
Theorem sent_message_is_digest (w : World) (msg : EmailMessage) :
  In (SmtpSend msg) (trace_of (run w)) ->
  exists url preset items t,
    Config.loaded w !! "RSS_FEED_URL" = Some url
    /\ Config.loaded w !! "RSS_FEED_SUMMARY_LENGTH" = Some preset
    /\ items <> []
    /\ Forall2 (fun e item =>
                  Summarizer.summary_of w (Config.budget preset) e = Some item)
         (List.filter (Selector.qualifies w) (feed_entries w url)) items
    /\ msg = Mailer.digest (Config.loaded w) items
    /\ msg_content msg = Mailer.blocks items
    /\ trace_of (run w) = (t ++ [SmtpSend msg])%list
    /\ Forall (fun ev => Reading.is_send ev = false) t.
Proof.
  unfold trace_of.
  destruct (run_shape w) as [-> | [-> | (url & preset & _ & _ & Hu & Hp & ->)]];
    cbn [fst In]; [intuition discriminate | intuition discriminate |].
  destruct (pipeline_shape w url preset (Config.loaded w))
    as (t & Ht & [(x & ->) | (items & Hne & Hitems & _ & ->)]); cbn [fst].
  - intros Hin. rewrite List.Forall_forall in Ht.
    apply Ht, pipeline_event_not_mailer in Hin as [[=] _].
  - intros [Hin | Hin]%in_app_or.
    + rewrite List.Forall_forall in Ht.
      apply Ht, pipeline_event_not_mailer in Hin as [[=] _].
    + apply send_email_sends in Hin as (-> & p & ->).
      exists url, preset, items,
        (t ++ [MessageBuilt (Mailer.digest (Config.loaded w) items);
               SmtpConnect (the (Config.loaded w !! "SMTP_SERVER")) p;
               SmtpLogin (the (Config.loaded w !! "SMTP_USER"))
                 (the (Config.loaded w !! "SMTP_PASSWORD"))])%list.
      repeat split; try assumption.
      * intros ->. inversion Hitems; subst. now apply Hne.
      * apply digest_body_blocks.
      * now rewrite <- app_assoc.
      * apply Forall_app. split; [| now repeat constructor].
        eapply Forall_impl; [exact Ht |].
        intros ev Hev. now apply pipeline_event_not_mailer in Hev.
Qed.

Lemma sent_message_is_digest_witness :
  exists url preset items t,
    Config.loaded Examples.scenario !! "RSS_FEED_URL" = Some url
    /\ Config.loaded Examples.scenario !! "RSS_FEED_SUMMARY_LENGTH" = Some preset
    /\ items <> []
    /\ Forall2 (fun e item =>
                  Summarizer.summary_of Examples.scenario (Config.budget preset) e
                  = Some item)
         (List.filter (Selector.qualifies Examples.scenario)
            (feed_entries Examples.scenario url)) items
    /\ Mailer.digest (Config.loaded Examples.scenario)
         [Cases.item_one; Cases.item_three]
       = Mailer.digest (Config.loaded Examples.scenario) items
    /\ msg_content (Mailer.digest (Config.loaded Examples.scenario)
                      [Cases.item_one; Cases.item_three])
       = Mailer.blocks items
    /\ trace_of (run Examples.scenario)
       = (t ++ [SmtpSend (Mailer.digest (Config.loaded Examples.scenario)
                            [Cases.item_one; Cases.item_three])])%list
    /\ Forall (fun ev => Reading.is_send ev = false) t.
Proof.
  apply (sent_message_is_digest Examples.scenario).
  vm_compute. tauto.
Defined.

(** X8: a run that returns without an exception has either printed the key
    message or the feed message as its only event, or ended by printing the
    mail message, or ended by handing to the transport a message that the
    transport delivered. *)
Theorem normal_return (w : World) :
  outcome_of (run w) = Returned ->
  trace_of (run w) = [Print missing_key_message]
  \/ trace_of (run w) = [Print missing_feed_message]
  \/ (exists t,
        trace_of (run w) = (t ++ [Print missing_mail_message])%list
        /\ Config.mail_configured (Config.loaded w) = false
        /\ Forall (fun ev => Reading.is_pipeline_event ev = true) t)
  \/ (exists t msg,
        trace_of (run w) = (t ++ [SmtpSend msg])%list
        /\ smtp_delivers w msg = true).
Proof.
  unfold trace_of, outcome_of.
  destruct (run_shape w) as [-> | [-> | (url & preset & _ & _ & Hu & Hp & ->)]];
    [now left | now right; left |].
  destruct (pipeline_shape w url preset (Config.loaded w))
    as (t & Ht & [(x & ->) | (items & _ & _ & _ & ->)]); cbn [fst snd];
    [discriminate |].
  rewrite send_email_table. cbv zeta.
  destruct (Config.mail_configured (Config.loaded w)); cbn [negb];
    [| intros _; right; right; left; eauto].
  destruct (Mailer.port _) as [p |]; [| discriminate].
  destruct (smtp_accepts w _ p); cbn [negb]; [| discriminate].
  destruct (smtp_authenticates w _ _); cbn [negb]; [| discriminate].
  destruct (smtp_delivers w _) eqn:Hd; cbn [negb fst snd]; [| discriminate].
  intros _. right; right; right.
  eexists (t ++ [_; _; _])%list, _. split; [| exact Hd].
  now rewrite <- app_assoc.
Qed.

Lemma normal_return_witness :
  trace_of (run Examples.no_server) = [Print missing_key_message]
  \/ trace_of (run Examples.no_server) = [Print missing_feed_message]
  \/ (exists t,
        trace_of (run Examples.no_server)
        = (t ++ [Print missing_mail_message])%list
        /\ Config.mail_configured (Config.loaded Examples.no_server) = false
        /\ Forall (fun ev => Reading.is_pipeline_event ev = true) t)
  \/ (exists t msg,
        trace_of (run Examples.no_server) = (t ++ [SmtpSend msg])%list
        /\ smtp_delivers Examples.no_server msg = true).
Proof.
  apply (normal_return Examples.no_server). vm_compute; reflexivity.
Defined.

(** ** The summarizer loop, in full *)

Lemma failure_pass (w : World) (len : Z) acc (e : Entry) env x :
  Reading.failure w len e = Some x ->
  summarize_entry w len acc e env = (Summarizer.events_of w len e, inl x).
Proof.
  rewrite summarize_entry_cases. unfold Reading.failure, Summarizer.events_of.
  destruct (http_content w (link e)) as [c |]; [| now intros [= <-]].
  cbv zeta. destruct (chat_answer w _); [discriminate | now intros [= <-]].
Qed.

Lemma loop_first_failure (w : World) (len : Z) (done rest : list Entry)
    (e : Entry) (items : list ArticleSummary) acc env x :
  Forall2 (fun e item => Summarizer.summary_of w len e = Some item) done items ->
  Reading.failure w len e = Some x ->
  for_each (done ++ e :: rest) (summarize_entry w len) acc env
  = ((Reading.loop_events w len done ++ Summarizer.events_of w len e)%list,
     inl x).
Proof.
  intros Hdone Hfail. rewrite for_each_app.
  rewrite (bind_returns _ _ _ _ _ _ (loop_answers w len done items acc env Hdone)).
  cbn [for_each]. erewrite bind_raises by (apply failure_pass; eassumption).
  reflexivity.
Qed.

Lemma events_of_pipeline (w : World) (len : Z) (e : Entry) :
  Forall (fun ev => Reading.is_pipeline_event ev = true)
    (Summarizer.events_of w len e).
Proof.
  unfold Summarizer.events_of.
  destruct (http_content w (link e)); now repeat constructor.
Qed.

Lemma loop_events_pipeline (w : World) (len : Z) (entries : list Entry) :
  Forall (fun ev => Reading.is_pipeline_event ev = true)
    (Reading.loop_events w len entries).
Proof.
  unfold Reading.loop_events.
  induction entries as [| e entries IH]; cbn [map concat]; [constructor |].
  apply Forall_app. split; [apply events_of_pipeline | exact IH].
Qed.

(** X4: the first kept entry whose article fetch or model call fails ends the
    run with that exception, right after the failed call: the entries after
    it are not fetched, the summaries made before it are dropped, and the
    mailer is never called. *)
Theorem first_failure_aborts (w : World) (url preset : string)
    (done rest : list Entry) (e : Entry) (items : list ArticleSummary)
    (x : exn) :
  Config.key_configured w = true -> Config.feed_configured w = true ->
  Config.loaded w !! "RSS_FEED_URL" = Some url ->
  Config.loaded w !! "RSS_FEED_SUMMARY_LENGTH" = Some preset ->
  List.find (Reading.offending w) (feed_entries w url) = None ->
  List.filter (Selector.qualifies w) (feed_entries w url)
  = (done ++ e :: rest)%list ->
  Forall2 (fun e item =>
             Summarizer.summary_of w (Config.budget preset) e = Some item)
    done items ->
  Reading.failure w (Config.budget preset) e = Some x ->
  run w
  = ((FeedParse url
      :: Reading.warning preset
         ++ Reading.loop_events w (Config.budget preset) done
         ++ Summarizer.events_of w (Config.budget preset) e)%list,
     inl x)
  /\ (x = RequestException \/ x = OpenAIError)
  /\ Forall (fun ev => Reading.is_pipeline_event ev = true) (trace_of (run w)).
Proof.
  intros Hk Hf Hu Hp Hfind Hfilter Hdone Hfail.
  assert (Hrun : run w
                 = ((FeedParse url
                     :: Reading.warning preset
                        ++ Reading.loop_events w (Config.budget preset) done
                        ++ Summarizer.events_of w (Config.budget preset) e)%list,
                    inl x)).
  { rewrite (run_configured w url preset Hk Hf Hu Hp). unfold pipeline.
    pose proof (read_rss_feed_find w url (Config.loaded w)) as Hread.
    rewrite Hfind, Hfilter in Hread.
    rewrite (bind_returns _ _ _ _ _ _ Hread).
    rewrite (bind_returns _ _ _ _ _ _
               (get_summary_length_warning preset (Config.loaded w))).
    rewrite (bind_raises _ _ _ _ _
               (loop_first_failure w _ done rest e items None _ x Hdone Hfail)).
    reflexivity. }
  split; [exact Hrun |]. split.
  - unfold Reading.failure in Hfail.
    destruct (http_content w (link e)); [| left; congruence].
    destruct (chat_answer w _); [discriminate | right; congruence].
  - unfold trace_of. rewrite Hrun. cbn [fst].
    constructor; [reflexivity |]. apply Forall_app. split;
      [apply warning_events |]. apply Forall_app. split.
    + apply loop_events_pipeline.
    + apply events_of_pipeline.
Qed.

Lemma first_failure_aborts_witness :
  run Cases.third_unreachable
  = ([FeedParse Examples.feed_url;
      HttpGet "https://example.org/one" 10;
      ChatCreate (summary_request 500 "<p>https://example.org/one</p>");
      HttpGet "https://example.org/three" 10],
     inl RequestException).
Proof.
  refine (proj1 (first_failure_aborts Cases.third_unreachable Examples.feed_url
                   "Short" [Examples.first] [] Examples.third [Cases.item_one]
                   RequestException _ _ _ _ _ _ _ _)).
  - vm_compute; reflexivity.
  - vm_compute; reflexivity.
  - vm_compute; reflexivity.
  - vm_compute; reflexivity.
  - vm_compute; reflexivity.
  - vm_compute; reflexivity.
  - vm_compute. repeat constructor.
  - vm_compute; reflexivity.
Defined.

Lemma filter_loop_events (f : event -> bool) (w : World) (len : Z)
    (entries : list Entry) (items : list ArticleSummary) :
  (forall e c, f (HttpGet (link e) 10)
               && f (ChatCreate (summary_request len (html_text w c))) = false
               /\ (f (HttpGet (link e) 10)
                   || f (ChatCreate (summary_request len (html_text w c)))
                   = true)) ->
  Forall2 (fun e item => Summarizer.summary_of w len e = Some item)
    entries items ->
  length (List.filter f (Reading.loop_events w len entries)) = length entries.
Proof.
  intros Hf H. unfold Reading.loop_events.
  induction H as [| e item entries items He _ IH]; [reflexivity |].
  cbn [map concat]. rewrite List.filter_app, length_app, IH.
  cbn [length]. f_equal.
  unfold Summarizer.summary_of in He. unfold Summarizer.events_of.
  destruct (http_content w (link e)) as [c |]; [| discriminate].
  destruct (Hf e c) as [H1 H2]. cbn [List.filter].
  destruct (f (HttpGet _ _)), (f (ChatCreate _)); try discriminate; reflexivity.
Qed.

(** X5: when the filter returns and the article fetch and the model call
    answer for every kept entry, of which there is at least one, the run is
    the feed fetch, the warning of an unrecognised preset if any, then for
    each kept entry in feed order one fetch of its link with timeout 10
    followed by one model call on the text of what was fetched, and then the
    mailer called once with one summary for each kept entry; it ends as the
    mailer ends. *)
Theorem answered_run (w : World) (url preset : string)
    (items : list ArticleSummary) :
  let filtered := List.filter (Selector.qualifies w) (feed_entries w url) in
  let len := Config.budget preset in
  Config.key_configured w = true -> Config.feed_configured w = true ->
  Config.loaded w !! "RSS_FEED_URL" = Some url ->
  Config.loaded w !! "RSS_FEED_SUMMARY_LENGTH" = Some preset ->
  List.find (Reading.offending w) (feed_entries w url) = None ->
  filtered <> [] ->
  Forall2 (fun e item => Summarizer.summary_of w len e = Some item)
    filtered items ->
  run w
  = ((FeedParse url :: Reading.warning preset
        ++ Reading.loop_events w len filtered
        ++ fst (send_email w items (Config.loaded w)))%list,
     snd (send_email w items (Config.loaded w)))
  /\ Forall2 (fun e evs =>
                exists c, http_content w (link e) = Some c
                          /\ evs = [HttpGet (link e) 10;
                                    ChatCreate (summary_request len
                                                  (html_text w c))])
       filtered (map (Summarizer.events_of w len) filtered)
  /\ length (List.filter Reading.is_fetch (Reading.loop_events w len filtered))
     = length filtered
  /\ length (List.filter Reading.is_model_call
               (Reading.loop_events w len filtered))
     = length filtered
  /\ length items = length filtered.
Proof.
  intros filtered len Hk Hf Hu Hp Hfind Hne Hitems.
  split; [| split; [| split; [| split]]].
  - rewrite (run_configured w url preset Hk Hf Hu Hp). unfold pipeline.
    pose proof (read_rss_feed_find w url (Config.loaded w)) as Hread.
    rewrite Hfind in Hread. fold filtered in Hread.
    rewrite (bind_returns _ _ _ _ _ _ Hread).
    rewrite (bind_returns _ _ _ _ _ _
               (get_summary_length_warning preset (Config.loaded w))).
    fold len.
    rewrite (bind_returns _ _ _ _ _ _
               (loop_answers w len filtered items None _ Hitems)).
    destruct filtered; [now destruct Hne |].
    unfold Summarizer.collected; cbn [from_option id app fst snd].
    reflexivity.
  - clear Hne. induction Hitems as [| e item l k He _ IH]; cbn [map];
      constructor; [| exact IH].
    unfold Summarizer.summary_of in He. unfold Summarizer.events_of.
    destruct (http_content w (link e)) as [c |]; [eauto | discriminate].
  - apply (filter_loop_events _ w len filtered items); [| assumption].
    intros e c. now split.
  - apply (filter_loop_events _ w len filtered items); [| assumption].
    intros e c. now split.
  - symmetry. eapply Forall2_length. eassumption.
Qed.

Lemma answered_run_witness :
  run Cases.refusing
  = ([FeedParse Examples.feed_url;
      HttpGet "https://example.org/one" 10;
      ChatCreate (summary_request 500 "<p>https://example.org/one</p>");
      HttpGet "https://example.org/three" 10;
      ChatCreate (summary_request 500 "<p>https://example.org/three</p>");
      MessageBuilt (Mailer.digest (Config.loaded Cases.refusing)
                      [Cases.item_one; Cases.item_three]);
      SmtpConnect "smtp.example.org" 465],
     inl SMTPException).
Proof.
  destruct (answered_run Cases.refusing Examples.feed_url "Short"
              [Cases.item_one; Cases.item_three]) as [Hrun _].
  - vm_compute; reflexivity.
  - vm_compute; reflexivity.
  - vm_compute; reflexivity.
  - vm_compute; reflexivity.
  - vm_compute; reflexivity.
  - vm_compute; discriminate.
  - vm_compute. repeat constructor.
  - rewrite Hrun. vm_compute. reflexivity.
Defined.

(** ** The body of the digest *)

Lemma blocks_app (a b : list ArticleSummary) :
  Mailer.blocks (a ++ b) = Mailer.blocks a +:+ Mailer.blocks b.
Proof.
  unfold Mailer.blocks. induction a as [| item a IH]; [reflexivity |].
  cbn [app map fold_right]. now rewrite IH, append_assoc.
Qed.

Lemma append_length (a b : string) :
  String.length (a +:+ b) = (String.length a + String.length b)%nat.
Proof.
  induction a as [| c a IH]; [reflexivity |].
  rewrite append_cons. cbn [String.length]. now rewrite IH.
Qed.

(** X9: the body of the digest is built block by block: the body of two
    lists of summaries put end to end is the body of the first followed by
    the body of the second, the body of no summary is empty, the body of one
    summary is its block, and the length of a body is the sum of the lengths
    of its blocks. *)
Theorem digest_body_app (a b : list ArticleSummary) (item : ArticleSummary) :
  digest_body (a ++ b) = digest_body a +:+ digest_body b
  /\ digest_body [] = ""
  /\ digest_body [item] = block item
  /\ String.length (digest_body a)
     = list_sum (map (fun i => String.length (block i)) a).
Proof.
  split; [| split; [reflexivity | split]].
  - rewrite !digest_body_blocks. apply blocks_app.
  - rewrite digest_body_blocks. unfold Mailer.blocks. cbn [map fold_right].
    apply append_nil_r.
  - rewrite digest_body_blocks. unfold Mailer.blocks.
    induction a as [| i a IH]; [reflexivity |].
    cbn [map fold_right list_sum]. now rewrite append_length, IH.
Qed.

(** ** The environment *)


